(** * vsock_tap_bridge: a shallow embedding of the vsock/TAP bridge module

    The development follows [kernel-module-example/vsock_tap_bridge.c].
    The module owns one heap-allocated [struct vsock_tap_bridge], reached
    through the global pointer [bridge]; every function of the module is
    embedded as a computation over that store.  Calls into the kernel are
    recorded in a trace; results of fallible kernel calls are supplied by
    an environment record. *)

From Stdlib Require Import ZArith List Bool String Lia.
Import ListNotations.
Local Open Scope string_scope.
Local Open Scope Z_scope.

(** ** Constants of the kernel headers used by the module *)

Module Errno.
Definition EINTR  : Z := 4.
Definition EAGAIN : Z := 11.
Definition ENOMEM : Z := 12.
End Errno.

(** [unsigned long] counters of [struct net_device_stats] wrap at 2^64. *)
Definition BITS_PER_LONG : Z := 64.
Definition ulong (z : Z) : Z := z mod 2 ^ BITS_PER_LONG.

(** [netdev_tx_t]. *)
Inductive netdev_tx := NETDEV_TX_OK | NETDEV_TX_BUSY.

(** ** Data model *)

(** Module parameters ([module_param]). *)
Record module_params := {
  vsock_port : Z;
  tap_name   : string;
  ip_addr    : string
}.

Definition default_params : module_params :=
  {| vsock_port := 5000; tap_name := "tap0"; ip_addr := "172.18.0.2" |}.

(** The two kernel threads of the module. *)
Inductive worker := RX | TX.

(** A [struct task_struct *]: NULL, an [ERR_PTR(-errno)], or a live task. *)
Inductive task_ptr :=
| TaskNull
| TaskErr (errno : positive)
| Task (w : worker).

Definition IS_ERR (p : task_ptr) : bool :=
  match p with TaskErr _ => true | _ => false end.

Definition PTR_ERR (p : task_ptr) : Z :=
  match p with TaskErr e => - Z.pos e | _ => 0 end.

Definition task_is_null (p : task_ptr) : bool :=
  match p with TaskNull => true | _ => false end.

(** A [struct socket] handle; the module never looks inside it. *)
Inductive socket := VsockStream.

(** A socket buffer: the module only reads [skb->data] and [skb->len]. *)
Record sk_buff := { skb_data : list Byte.byte }.


(** The counters of [struct net_device_stats].  The module writes the first
    four; the drop counters belong to the same kernel structure. *)
Record net_device_stats := {
  rx_packets : Z;
  rx_bytes   : Z;
  tx_packets : Z;
  tx_bytes   : Z;
  rx_dropped : Z;
  tx_dropped : Z
}.

Definition zero_stats : net_device_stats :=
  {| rx_packets := 0; rx_bytes := 0; tx_packets := 0; tx_bytes := 0;
     rx_dropped := 0; tx_dropped := 0 |}.

Record net_device := {
  dev_name : string;
  stats    : net_device_stats
}.

(** [struct vsock_tap_bridge]; pointers are options, queues are lists with
    the head of the queue first. *)
Record vsock_tap_bridge := {
  tap_dev    : option net_device;
  vsock_sock : option socket;
  rx_thread  : task_ptr;
  tx_thread  : task_ptr;
  rx_queue   : list sk_buff;
  tx_queue   : list sk_buff;
  running    : bool
}.

(** What [kzalloc] returns: every field zero. *)
Definition zeroed_bridge : vsock_tap_bridge :=
  {| tap_dev := None; vsock_sock := None;
     rx_thread := TaskNull; tx_thread := TaskNull;
     rx_queue := []; tx_queue := []; running := false |}.

Definition set_tap_dev (d : option net_device) (br : vsock_tap_bridge) :=
  {| tap_dev := d; vsock_sock := vsock_sock br;
     rx_thread := rx_thread br; tx_thread := tx_thread br;
     rx_queue := rx_queue br; tx_queue := tx_queue br; running := running br |}.

Definition set_vsock_sock (s : option socket) (br : vsock_tap_bridge) :=
  {| tap_dev := tap_dev br; vsock_sock := s;
     rx_thread := rx_thread br; tx_thread := tx_thread br;
     rx_queue := rx_queue br; tx_queue := tx_queue br; running := running br |}.

Definition set_rx_thread (p : task_ptr) (br : vsock_tap_bridge) :=
  {| tap_dev := tap_dev br; vsock_sock := vsock_sock br;
     rx_thread := p; tx_thread := tx_thread br;
     rx_queue := rx_queue br; tx_queue := tx_queue br; running := running br |}.

Definition set_tx_thread (p : task_ptr) (br : vsock_tap_bridge) :=
  {| tap_dev := tap_dev br; vsock_sock := vsock_sock br;
     rx_thread := rx_thread br; tx_thread := p;
     rx_queue := rx_queue br; tx_queue := tx_queue br; running := running br |}.

Definition set_rx_queue (q : list sk_buff) (br : vsock_tap_bridge) :=
  {| tap_dev := tap_dev br; vsock_sock := vsock_sock br;
     rx_thread := rx_thread br; tx_thread := tx_thread br;
     rx_queue := q; tx_queue := tx_queue br; running := running br |}.

Definition set_tx_queue (q : list sk_buff) (br : vsock_tap_bridge) :=
  {| tap_dev := tap_dev br; vsock_sock := vsock_sock br;
     rx_thread := rx_thread br; tx_thread := tx_thread br;
     rx_queue := rx_queue br; tx_queue := q; running := running br |}.

Definition set_running (b : bool) (br : vsock_tap_bridge) :=
  {| tap_dev := tap_dev br; vsock_sock := vsock_sock br;
     rx_thread := rx_thread br; tx_thread := tx_thread br;
     rx_queue := rx_queue br; tx_queue := tx_queue br; running := b |}.

Definition set_stats (st : net_device_stats) (d : net_device) : net_device :=
  {| dev_name := dev_name d; stats := st |}.

(** ** Observable actions

    One constructor per kernel entry point the module calls, carrying the
    arguments and results that matter, plus the stores to the shared
    [running] flag. *)

Inductive queue_id := RxQueue | TxQueue.

Inductive event :=
| EvInfo (msg : string)                       (* pr_info *)
| EvErr (msg : string) (code : option Z)      (* pr_err *)
| EvKzalloc (ok : bool)
| EvQueueInit (q : queue_id)                  (* skb_queue_head_init *)
| EvStoreRunning (b : bool)                   (* bridge->running = b *)
| EvAllocNetdev (name : string) (ok : bool)
| EvRegisterNetdev (ret : Z)
| EvSockCreate (ret : Z)                      (* sock_create_kern *)
| EvConnect (port : Z) (ret : Z)              (* kernel_connect, CID 2 *)
| EvKthreadRun (w : worker) (res : task_ptr)
| EvRtnlLock
| EvRtnlUnlock
| EvDevOpen (ret : Z)
| EvDevClose
| EvKthreadStop (p : task_ptr)
| EvSockRelease                               (* sock_release *)
| EvUnregisterNetdev
| EvFreeNetdev
| EvQueuePurge (q : queue_id) (dropped : list sk_buff)
| EvKfree                                     (* kfree(bridge) *)
| EvRecvmsg (sock : option socket) (ret : Z)  (* kernel_recvmsg *)
| EvAllocSkb (size : Z) (ok : bool)           (* dev_alloc_skb *)
| EvNetifRx (skb : sk_buff)
| EvQueueTail (q : queue_id) (skb : sk_buff)  (* skb_queue_tail *)
| EvDequeue (q : queue_id) (skb : option sk_buff)
| EvScheduleTimeout
| EvSendmsg (sock : option socket) (skb : sk_buff) (ret : Z)
| EvKfreeSkb (skb : sk_buff)                  (* dev_kfree_skb *)
| EvWakeUp (p : task_ptr).                    (* wake_up_process *)

(** ** The store and the computations over it *)

(** [bridge m = None] is the NULL global (no structure allocated);
    [trace m] lists the actions so far, newest first. *)
Record machine := {
  bridge : option vsock_tap_bridge;
  trace  : list event
}.

Definition boot : machine := {| bridge := None; trace := [] |}.

(** The actions in program order. *)
Definition history (m : machine) : list event := rev (trace m).

(** A computation either finishes with a value or dereferences a NULL (or
    freed) pointer. *)
Inductive outcome (A : Type) :=
| Done (a : A) (m : machine)
| Oops (m : machine).
Arguments Done {A} a m.
Arguments Oops {A} m.

Definition kern (A : Type) : Type := machine -> outcome A.

Definition ret {A} (a : A) : kern A := fun m => Done a m.

Definition bind {A B} (c : kern A) (k : A -> kern B) : kern B :=
  fun m => match c m with
           | Done a m' => k a m'
           | Oops m' => Oops m'
           end.

Declare Scope kern_scope.
Delimit Scope kern_scope with kern.
Notation "x <- c ;; k" := (bind c (fun x => k))
  (at level 61, c at next level, right associativity) : kern_scope.
Notation "c ;; k" := (bind c (fun _ => k))
  (at level 61, right associativity) : kern_scope.
Local Open Scope kern_scope.

(** A call into the kernel (or a traced store). *)
Definition call (e : event) : kern unit :=
  fun m => Done tt {| bridge := bridge m; trace := e :: trace m |}.

(** Reading the global pointer itself: [bridge], [!bridge]. *)
Definition read_global : kern (option vsock_tap_bridge) :=
  fun m => Done (bridge m) m.

(** [bridge->...] as an rvalue. *)
Definition deref : kern vsock_tap_bridge :=
  fun m => match bridge m with
           | Some br => Done br m
           | None => Oops m
           end.

(** [bridge->field = ...]. *)
Definition update (f : vsock_tap_bridge -> vsock_tap_bridge) : kern unit :=
  fun m => match bridge m with
           | Some br => Done tt {| bridge := Some (f br); trace := trace m |}
           | None => Oops m
           end.

Definition set_global (g : option vsock_tap_bridge) : kern unit :=
  fun m => Done tt {| bridge := g; trace := trace m |}.

Definition oops {A} : kern A := fun m => Oops m.

Definition when (b : bool) (c : kern unit) : kern unit :=
  if b then c else ret tt.

Definition store_running (b : bool) : kern unit :=
  update (set_running b) ;; call (EvStoreRunning b).

(** ** [tap_xmit]: the transmit upcall *)

Definition tap_xmit (skb : sk_buff) : kern netdev_tx :=
  g <- read_global ;;
  match g with
  | None =>
      call (EvKfreeSkb skb) ;;
      ret NETDEV_TX_OK
  | Some br =>
      if negb (running br) then
        call (EvKfreeSkb skb) ;;
        ret NETDEV_TX_OK
      else
        (* Queue packet for vsock transmission *)
        update (fun b => set_tx_queue (tx_queue b ++ [skb]) b) ;;
        call (EvQueueTail TxQueue skb) ;;
        (* Wake up transmit thread *)
        call (EvWakeUp (tx_thread br)) ;;
        ret NETDEV_TX_OK
  end.

(** ** [vsock_tap_bridge_init]: module initialization *)

(** Results of the fallible kernel calls of one initialization. *)
Record init_env := {
  kzalloc_ok          : bool;            (* kzalloc returned non-NULL *)
  alloc_netdev_ok     : bool;            (* alloc_netdev returned non-NULL *)
  register_netdev_ret : Z;
  sock_create_ret     : Z;
  kernel_connect_ret  : Z;
  kthread_run_rx_err  : option positive; (* Some e: ERR_PTR(-e) *)
  kthread_run_tx_err  : option positive;
  dev_open_ret        : Z
}.

Definition kthread_run (w : worker) (err : option positive) : task_ptr :=
  match err with
  | None => Task w
  | Some e => TaskErr e
  end.

(** The unwind labels; each falls through to the next one. *)

Definition err_free_bridge (r : Z) : kern Z :=
  call EvKfree ;;
  set_global None ;;
  ret r.

Definition err_free_netdev (r : Z) : kern Z :=
  call EvFreeNetdev ;;
  err_free_bridge r.

Definition err_unregister_netdev (r : Z) : kern Z :=
  call EvUnregisterNetdev ;;
  err_free_netdev r.

Definition err_close_socket (r : Z) : kern Z :=
  call EvSockRelease ;;
  err_unregister_netdev r.

Definition err_stop_rx (r : Z) : kern Z :=
  br <- deref ;;
  call (EvKthreadStop (rx_thread br)) ;;
  err_close_socket r.

Definition vsock_tap_bridge_init (p : module_params) (env : init_env) : kern Z :=
  call (EvInfo "Initializing") ;;
  (* Allocate bridge structure *)
  call (EvKzalloc (kzalloc_ok env)) ;;
  set_global (if kzalloc_ok env then Some zeroed_bridge else None) ;;
  g <- read_global ;;
  match g with
  | None => ret (- Errno.ENOMEM)
  | Some _ =>
  (* Initialize packet queues *)
  call (EvQueueInit RxQueue) ;; update (set_rx_queue []) ;;
  call (EvQueueInit TxQueue) ;; update (set_tx_queue []) ;;
  store_running true ;;
  (* Create TAP device *)
  call (EvAllocNetdev (tap_name p) (alloc_netdev_ok env)) ;;
  update (set_tap_dev
            (if alloc_netdev_ok env
             then Some {| dev_name := tap_name p; stats := zero_stats |}
             else None)) ;;
  br <- deref ;;
  match tap_dev br with
  | None =>
      call (EvErr "failed to allocate TAP device" None) ;;
      err_free_bridge (- Errno.ENOMEM)
  | Some _ =>
  (* Register TAP device with network stack *)
  let r := register_netdev_ret env in
  call (EvRegisterNetdev r) ;;
  if negb (r =? 0) then
    call (EvErr "failed to register TAP device" (Some r)) ;;
    err_free_netdev r
  else
  (* Create vsock socket *)
  let r := sock_create_ret env in
  call (EvSockCreate r) ;;
  when (r =? 0) (update (set_vsock_sock (Some VsockStream))) ;;
  if negb (r =? 0) then
    call (EvErr "failed to create vsock socket" (Some r)) ;;
    err_unregister_netdev r
  else
  (* Connect to vsock host (CID 2 = host) *)
  let r := kernel_connect_ret env in
  call (EvConnect (vsock_port p) r) ;;
  if negb (r =? 0) then
    call (EvErr "failed to connect vsock" (Some r)) ;;
    err_close_socket r
  else
  (* Start receive thread *)
  let t := kthread_run RX (kthread_run_rx_err env) in
  call (EvKthreadRun RX t) ;;
  update (set_rx_thread t) ;;
  br <- deref ;;
  if IS_ERR (rx_thread br) then
    let r := PTR_ERR (rx_thread br) in
    call (EvErr "failed to start RX thread" (Some r)) ;;
    err_close_socket r
  else
  (* Start transmit thread *)
  let t := kthread_run TX (kthread_run_tx_err env) in
  call (EvKthreadRun TX t) ;;
  update (set_tx_thread t) ;;
  br <- deref ;;
  if IS_ERR (tx_thread br) then
    let r := PTR_ERR (tx_thread br) in
    call (EvErr "failed to start TX thread" (Some r)) ;;
    err_stop_rx r
  else
  (* Bring TAP device up; the result of dev_open is discarded *)
  call EvRtnlLock ;;
  call (EvDevOpen (dev_open_ret env)) ;;
  call EvRtnlUnlock ;;
  call (EvInfo "Successfully initialized") ;;
  ret 0
  end
  end.

(** ** [vsock_tap_bridge_exit]: module cleanup *)

Definition skb_queue_purge (q : queue_id) : kern unit :=
  br <- deref ;;
  match q with
  | RxQueue => call (EvQueuePurge RxQueue (rx_queue br)) ;; update (set_rx_queue [])
  | TxQueue => call (EvQueuePurge TxQueue (tx_queue br)) ;; update (set_tx_queue [])
  end.

Definition vsock_tap_bridge_exit : kern unit :=
  call (EvInfo "Cleaning up") ;;
  g <- read_global ;;
  match g with
  | None => ret tt
  | Some _ =>
  (* Signal threads to stop *)
  store_running false ;;
  (* Stop threads *)
  br <- deref ;;
  when (negb (task_is_null (tx_thread br))) (call (EvKthreadStop (tx_thread br))) ;;
  when (negb (task_is_null (rx_thread br))) (call (EvKthreadStop (rx_thread br))) ;;
  (* Close socket *)
  when (match vsock_sock br with Some _ => true | None => false end)
       (call EvSockRelease) ;;
  (* Unregister and free TAP device *)
  when (match tap_dev br with Some _ => true | None => false end)
       (call EvRtnlLock ;;
        call EvDevClose ;;
        call EvRtnlUnlock ;;
        call EvUnregisterNetdev ;;
        call EvFreeNetdev) ;;
  (* Purge any remaining packets *)
  skb_queue_purge RxQueue ;;
  skb_queue_purge TxQueue ;;
  (* Free bridge structure *)
  call EvKfree ;;
  set_global None ;;
  call (EvInfo "Cleanup complete")
  end.

(** ** The worker threads

    A worker loop runs against a script: one record per loop iteration
    with what the kernel answers in that iteration.  A loop that uses up
    its script is still looping. *)

Inductive control := Continue | Break.

Inductive loop_exit := LoopExited | StillLooping.

(** *** [vsock_rx_thread] *)

Record rx_io := {
  rx_should_stop : bool;            (* kthread_should_stop() *)
  recvmsg_ret    : Z;               (* kernel_recvmsg *)
  recvmsg_buf    : list Byte.byte;  (* contents of [buffer] afterwards *)
  alloc_skb_ok   : bool             (* dev_alloc_skb returned non-NULL *)
}.

Definition rx_account (len : Z) (d : net_device) : net_device :=
  let st := stats d in
  set_stats {| rx_packets := ulong (rx_packets st + 1);
               rx_bytes   := ulong (rx_bytes st + len);
               tx_packets := tx_packets st;
               tx_bytes   := tx_bytes st;
               rx_dropped := rx_dropped st;
               tx_dropped := tx_dropped st |} d.

(** One pass through the body of the [while] loop. *)
Definition rx_body (io : rx_io) : kern control :=
  br <- deref ;;
  (* Receive packet from vsock (blocking) *)
  let len := recvmsg_ret io in
  call (EvRecvmsg (vsock_sock br) len) ;;
  if len <=? 0 then
    if len =? - Errno.EAGAIN then ret Continue
    else
      call (EvErr "recvmsg error" (Some len)) ;;
      ret Break
  else
    (* Allocate sk_buff *)
    call (EvAllocSkb (len + 2) (alloc_skb_ok io)) ;;
    if negb (alloc_skb_ok io) then
      call (EvErr "failed to allocate skb" None) ;;
      ret Continue
    else
      let skb := {| skb_data := firstn (Z.to_nat len) (recvmsg_buf io) |} in
      br <- deref ;;
      match tap_dev br with
      | None => oops
      | Some dev =>
          (* Inject packet into network stack *)
          call (EvNetifRx skb) ;;
          (* Update statistics *)
          update (set_tap_dev (Some (rx_account len dev))) ;;
          ret Continue
      end.

Fixpoint rx_loop (script : list rx_io) : kern loop_exit :=
  match script with
  | [] => ret StillLooping
  | io :: rest =>
      if rx_should_stop io then ret LoopExited
      else
        br <- deref ;;
        if negb (running br) then ret LoopExited
        else
          c <- rx_body io ;;
          match c with
          | Continue => rx_loop rest
          | Break => ret LoopExited
          end
  end.

(** [Some 0] is the thread function returning 0. *)
Definition vsock_rx_thread (script : list rx_io) : kern (option Z) :=
  call (EvInfo "RX thread started") ;;
  r <- rx_loop script ;;
  match r with
  | LoopExited =>
      call (EvInfo "RX thread stopped") ;;
      ret (Some 0)
  | StillLooping => ret None
  end.

(** *** [vsock_tx_thread] *)

Record tx_io := {
  tx_should_stop : bool;   (* kthread_should_stop() *)
  sendmsg_ret    : Z       (* kernel_sendmsg, when a frame was dequeued *)
}.

Definition tx_account (len : Z) (d : net_device) : net_device :=
  let st := stats d in
  set_stats {| rx_packets := rx_packets st;
               rx_bytes   := rx_bytes st;
               tx_packets := ulong (tx_packets st + 1);
               tx_bytes   := ulong (tx_bytes st + len);
               rx_dropped := rx_dropped st;
               tx_dropped := tx_dropped st |} d.

(** One pass through the body of the [while] loop; the body has no
    [break]. *)
Definition tx_body (io : tx_io) : kern unit :=
  br <- deref ;;
  (* Wait for packet in queue *)
  match tx_queue br with
  | [] =>
      call (EvDequeue TxQueue None) ;;
      (* No packets, sleep *)
      call EvScheduleTimeout
  | skb :: q =>
      update (set_tx_queue q) ;;
      call (EvDequeue TxQueue (Some skb)) ;;
      (* Send packet via vsock *)
      let len := sendmsg_ret io in
      call (EvSendmsg (vsock_sock br) skb len) ;;
      (if len <? 0 then
         call (EvErr "sendmsg error" (Some len))
       else
         br <- deref ;;
         match tap_dev br with
         | None => oops
         | Some dev => update (set_tap_dev (Some (tx_account len dev)))
         end) ;;
      (* Free the socket buffer *)
      call (EvKfreeSkb skb)
  end.

Fixpoint tx_loop (script : list tx_io) : kern loop_exit :=
  match script with
  | [] => ret StillLooping
  | io :: rest =>
      if tx_should_stop io then ret LoopExited
      else
        br <- deref ;;
        if negb (running br) then ret LoopExited
        else
          tx_body io ;;
          tx_loop rest
  end.

Definition vsock_tx_thread (script : list tx_io) : kern (option Z) :=
  call (EvInfo "TX thread started") ;;
  r <- tx_loop script ;;
  match r with
  | LoopExited =>
      call (EvInfo "TX thread stopped") ;;
      ret (Some 0)
  | StillLooping => ret None
  end.

(** ** Reading runs *)

Definition final {A} (o : outcome A) : machine :=
  match o with
  | Done _ m => m
  | Oops m => m
  end.


(** The machine whose global pointer refers to [br], with trace [t]. *)
Definition at_bridge (br : vsock_tap_bridge) (t : list event) : machine :=
  {| bridge := Some br; trace := t |}.

(** The values stored into [running], in the order of the list. *)
Fixpoint running_stores (evs : list event) : list bool :=
  match evs with
  | [] => []
  | EvStoreRunning b :: tl => b :: running_stores tl
  | _ :: tl => running_stores tl
  end.

(** Does every [running = true] in a history (oldest first) come after a
    successful [kernel_connect]? *)
Fixpoint set_only_after_connect (connected : bool) (evs : list event) : bool :=
  match evs with
  | [] => true
  | EvConnect _ r :: tl => set_only_after_connect (connected || (r =? 0)) tl
  | EvStoreRunning true :: tl => connected && set_only_after_connect connected tl
  | _ :: tl => set_only_after_connect connected tl
  end.

(** Is the socket released before every [kthread_stop] of the RX thread in
    a history (oldest first)? *)
Fixpoint closed_before_rx_stop (closed : bool) (evs : list event) : bool :=
  match evs with
  | [] => true
  | EvSockRelease :: tl => closed_before_rx_stop true tl
  | EvKthreadStop (Task RX) :: tl => closed && closed_before_rx_stop closed tl
  | _ :: tl => closed_before_rx_stop closed tl
  end.

(** Actions another thread of the module can notice: stores to the flag,
    wake-ups, thread stops and the release of the socket. *)
Definition reaches_other_thread (e : event) : bool :=
  match e with
  | EvStoreRunning _ | EvWakeUp _ | EvKthreadStop _ | EvSockRelease => true
  | _ => false
  end.

(** The actions added to the trace between [before] and [after], newest
    first. *)
Definition added (before after : machine) : list event :=
  firstn (List.length (trace after) - List.length (trace before)) (trace after).

(** Has anything been signalled to the rest of the module between two
    machines: a changed [running] flag, a structure that appeared or went
    away, or an action another thread notices? *)
Definition signalled (before after : machine) : bool :=
  match bridge before, bridge after with
  | Some b, Some a =>
      negb (Bool.eqb (running b) (running a))
      || existsb reaches_other_thread (added before after)
  | None, None => existsb reaches_other_thread (added before after)
  | _, _ => true
  end.

(** The drop counters of the interface, when there is one. *)
Definition drop_counters (m : machine) : option (Z * Z) :=
  match bridge m with
  | Some br =>
      match tap_dev br with
      | Some d => Some (rx_dropped (stats d), tx_dropped (stats d))
      | None => None
      end
  | None => None
  end.




(** ** Resource ledger

    Acquisitions and releases read off a history.  The ledger is a stack:
    a release is accepted only for the resource acquired last, so a
    history the ledger accepts releases in exactly the reverse order of
    acquisition and never releases twice. *)

Inductive resource :=
| ResBridge          (* kzalloc / kfree *)
| ResNetdev          (* alloc_netdev / free_netdev *)
| ResRegistration    (* register_netdev / unregister_netdev *)
| ResSocket          (* sock_create_kern / sock_release *)
| ResThread (w : worker).  (* kthread_run / kthread_stop *)

Definition worker_eqb (a b : worker) : bool :=
  match a, b with
  | RX, RX | TX, TX => true
  | _, _ => false
  end.

Definition resource_eqb (a b : resource) : bool :=
  match a, b with
  | ResBridge, ResBridge
  | ResNetdev, ResNetdev
  | ResRegistration, ResRegistration
  | ResSocket, ResSocket => true
  | ResThread v, ResThread w => worker_eqb v w
  | _, _ => false
  end.

Definition acquire (r : resource) (held : list resource) : option (list resource) :=
  if existsb (resource_eqb r) held then None else Some (r :: held).

Definition release (r : resource) (held : list resource) : option (list resource) :=
  match held with
  | top :: rest => if resource_eqb r top then Some rest else None
  | [] => None
  end.

Definition account (held : list resource) (e : event) : option (list resource) :=
  match e with
  | EvKzalloc true => acquire ResBridge held
  | EvAllocNetdev _ true => acquire ResNetdev held
  | EvRegisterNetdev r => if r =? 0 then acquire ResRegistration held else Some held
  | EvSockCreate r => if r =? 0 then acquire ResSocket held else Some held
  | EvKthreadRun w (Task _) => acquire (ResThread w) held
  | EvKthreadStop (Task w) => release (ResThread w) held
  | EvKthreadStop _ => None
  | EvSockRelease => release ResSocket held
  | EvUnregisterNetdev => release ResRegistration held
  | EvFreeNetdev => release ResNetdev held
  | EvKfree => release ResBridge held
  | _ => Some held
  end.

Fixpoint ledger (held : list resource) (evs : list event) : option (list resource) :=
  match evs with
  | [] => Some held
  | e :: tl =>
      match account held e with
      | Some held' => ledger held' tl
      | None => None
      end
  end.

(** ** Environments and machines used in examples *)

Definition env_ok : init_env :=
  {| kzalloc_ok := true; alloc_netdev_ok := true;
     register_netdev_ret := 0; sock_create_ret := 0; kernel_connect_ret := 0;
     kthread_run_rx_err := None; kthread_run_tx_err := None;
     dev_open_ret := 0 |}.

(** The bridge in steady state: what a successful initialization leaves. *)
Definition up_bridge : vsock_tap_bridge :=
  {| tap_dev := Some {| dev_name := "tap0"; stats := zero_stats |};
     vsock_sock := Some VsockStream;
     rx_thread := Task RX; tx_thread := Task TX;
     rx_queue := []; tx_queue := []; running := true |}.

Definition up : machine := at_bridge up_bridge [].

Definition frame64 : sk_buff :=
  {| skb_data := repeat Byte.x2a 64 |}.

Definition frame3 : sk_buff :=
  {| skb_data := [Byte.x01; Byte.x02; Byte.x03] |}.

(** Did some checked step of the initialization fail? *)
Definition checked_step_fails (env : init_env) : bool :=
  negb (kzalloc_ok env)
  || negb (alloc_netdev_ok env)
  || negb (register_netdev_ret env =? 0)
  || negb (sock_create_ret env =? 0)
  || negb (kernel_connect_ret env =? 0)
  || (match kthread_run_rx_err env with Some _ => true | None => false end)
  || (match kthread_run_tx_err env with Some _ => true | None => false end).

(** A bridge whose [running] flag has been cleared. *)
Definition stopped : machine := at_bridge (set_running false up_bridge) [].

(** The reading of "no frame is lost without a drop counter" for one call
    of the upcall: if the call frees the frame, a drop counter moves. *)
Definition xmit_drop_counted (skb : sk_buff) (m : machine) : Prop :=
  forall r m',
    tap_xmit skb m = Done r m' ->
    In (EvKfreeSkb skb) (added m m') ->
    drop_counters m' <> drop_counters m.

(** The teardown phase an action belongs to, in the order the cleanup is
    meant to go through them: clear the flag, stop the threads, close the
    transport, take the interface down, purge the queues, free the
    structure.  Log lines and the rtnl lock belong to no phase. *)
Definition shutdown_phase (e : event) : option nat :=
  match e with
  | EvStoreRunning false => Some 1%nat
  | EvKthreadStop _ => Some 2%nat
  | EvSockRelease => Some 3%nat
  | EvDevClose | EvUnregisterNetdev | EvFreeNetdev => Some 4%nat
  | EvQueuePurge _ _ => Some 5%nat
  | EvKfree => Some 6%nat
  | _ => None
  end.

Fixpoint phases (evs : list event) : list nat :=
  match evs with
  | [] => []
  | e :: tl =>
      match shutdown_phase e with
      | Some n => n :: phases tl
      | None => phases tl
      end
  end.

Fixpoint ascending (l : list nat) : bool :=
  match l with
  | a :: (b :: _) as tl => (a <=? b)%nat && ascending tl
  | _ => true
  end.

(** The history of a cleanup that finds the structure [br]. *)
Definition exit_history (br : vsock_tap_bridge) : list event :=
  [EvInfo "Cleaning up"; EvStoreRunning false]
  ++ (if task_is_null (tx_thread br) then [] else [EvKthreadStop (tx_thread br)])
  ++ (if task_is_null (rx_thread br) then [] else [EvKthreadStop (rx_thread br)])
  ++ (match vsock_sock br with Some _ => [EvSockRelease] | None => [] end)
  ++ (match tap_dev br with
      | Some _ => [EvRtnlLock; EvDevClose; EvRtnlUnlock;
                   EvUnregisterNetdev; EvFreeNetdev]
      | None => []
      end)
  ++ [EvQueuePurge RxQueue (rx_queue br); EvQueuePurge TxQueue (tx_queue br);
      EvKfree; EvInfo "Cleanup complete"].

(** [m'] has the flag of [m] and no further store to it. *)
Definition same_flag (m m' : machine) : Prop :=
  running_stores (trace m') = running_stores (trace m)
  /\ option_map running (bridge m') = option_map running (bridge m).

(** Reads used in examples: zero bytes, -EINTR, -EAGAIN, -ECONNRESET, and
    a 3-byte frame for which [dev_alloc_skb] fails. *)
Definition read_of (ret : Z) : rx_io :=
  {| rx_should_stop := false; recvmsg_ret := ret;
     recvmsg_buf := [Byte.x01; Byte.x02; Byte.x03]; alloc_skb_ok := true |}.

Definition zero_read  : rx_io := read_of 0.
Definition eintr_read : rx_io := read_of (- Errno.EINTR).
Definition again_read : rx_io := read_of (- Errno.EAGAIN).
Definition reset_read : rx_io := read_of (-104).

Definition starved_read : rx_io :=
  {| rx_should_stop := false; recvmsg_ret := 3;
     recvmsg_buf := [Byte.x01; Byte.x02; Byte.x03]; alloc_skb_ok := false |}.

(** "The read is treated as transient": after it the worker is still in
    its loop. *)
Definition treated_as_transient (io : rx_io) (m : machine) : Prop :=
  exists m', rx_loop [io] m = Done StillLooping m'.

(** "The loss of the transport is propagated": the run of the RX thread
    over the read leaves something the rest of the module can notice. *)
Definition transport_loss_propagated (io : rx_io) (m : machine) : Prop :=
  signalled m (final (vsock_rx_thread [io] m)) = true.

(** Sends used in examples. *)
Definition send_of (ret : Z) : tx_io :=
  {| tx_should_stop := false; sendmsg_ret := ret |}.




(** An initialization in which only [dev_open] fails (-EBUSY). *)
Definition env_dev_open_fails : init_env :=
  {| kzalloc_ok := true; alloc_netdev_ok := true;
     register_netdev_ret := 0; sock_create_ret := 0; kernel_connect_ret := 0;
     kthread_run_rx_err := None; kthread_run_tx_err := None;
     dev_open_ret := -16 |}.

(** An initialization whose connect is refused (-ECONNREFUSED). *)
Definition env_connect_refused : init_env :=
  {| kzalloc_ok := true; alloc_netdev_ok := true;
     register_netdev_ret := 0; sock_create_ret := 0; kernel_connect_ret := -111;
     kthread_run_rx_err := None; kthread_run_tx_err := None;
     dev_open_ret := 0 |}.

(** Everything a finished initialization holds, newest first. *)
Definition all_resources : list resource :=
  [ResThread TX; ResThread RX; ResSocket; ResRegistration; ResNetdev; ResBridge].

(** Closes a failure case of the initialization by running it. *)
Ltac unwound :=
  do 2 eexists;
  split; [lazy; reflexivity|];
  split; [cbv; discriminate|];
  split; reflexivity.

(** ** [tap_setup]: the interface setup callback

    [ether_setup] and [eth_hw_addr_random] are kernel functions: the
    device as [ether_setup] leaves it and the address drawn by
    [eth_hw_addr_random] are inputs.  Only the fields the callback writes
    are kept. *)

(** Interface flags, with their values in [linux/if.h]. *)
Module Iff.
Definition IFF_NOARP     : Z := 0x80.
Definition IFF_MULTICAST : Z := 0x1000.
End Iff.

(** [dev->flags] is an [unsigned int]. *)
Definition u32 (z : Z) : Z := z mod 2 ^ 32.

(** [struct net_device_ops], with the one operation the module fills in. *)
Record net_device_ops := {
  ndo_start_xmit : sk_buff -> kern netdev_tx
}.

Definition tap_netdev_ops : net_device_ops :=
  {| ndo_start_xmit := tap_xmit |}.

Record netdev_setup := {
  flags      : Z;
  netdev_ops : option net_device_ops;
  dev_addr   : list Byte.byte
}.

Definition tap_setup (after_ether_setup : netdev_setup)
    (random_addr : list Byte.byte) : netdev_setup :=
  let dev := after_ether_setup in
  let f := flags dev in
  let f := u32 (Z.lor f Iff.IFF_NOARP) in                  (* flags |= IFF_NOARP *)
  let f := u32 (Z.land f (Z.lnot Iff.IFF_MULTICAST)) in    (* flags &= ~IFF_MULTICAST *)
  {| flags := f;
     netdev_ops := Some tap_netdev_ops;
     dev_addr := random_addr |}.

(** ** Drivers and observations for the forwarding paths *)

(** The stack submitting frames one after the other. *)
Fixpoint xmit_all (fs : list sk_buff) : kern unit :=
  match fs with
  | [] => ret tt
  | f :: rest => tap_xmit f ;; xmit_all rest
  end.

(** What a trace (newest first) shows, in program order: the frames handed
    to [kernel_sendmsg] with the result of each call, the frames released
    with [dev_kfree_skb], the frames injected with [netif_rx], and the
    number of wake-ups. *)
Fixpoint sent (tr : list event) : list (sk_buff * Z) :=
  match tr with
  | [] => []
  | EvSendmsg _ s r :: tl => sent tl ++ [(s, r)]
  | _ :: tl => sent tl
  end.

Fixpoint freed (tr : list event) : list sk_buff :=
  match tr with
  | [] => []
  | EvKfreeSkb s :: tl => freed tl ++ [s]
  | _ :: tl => freed tl
  end.

Fixpoint injected (tr : list event) : list sk_buff :=
  match tr with
  | [] => []
  | EvNetifRx s :: tl => injected tl ++ [s]
  | _ :: tl => injected tl
  end.

Fixpoint wakeups (tr : list event) : nat :=
  match tr with
  | [] => O
  | EvWakeUp _ :: tl => S (wakeups tl)
  | _ :: tl => wakeups tl
  end.

(** *** What a run of the TX loop is expected to do *)

(** The sends of a TX loop that starts with queue [q]: one per dequeued
    frame, with the result the transport gave. *)
Fixpoint tx_sends (q : list sk_buff) (script : list tx_io) : list (sk_buff * Z) :=
  match script with
  | [] => []
  | io :: rest =>
      if tx_should_stop io then []
      else match q with
           | [] => tx_sends [] rest
           | skb :: q' => (skb, sendmsg_ret io) :: tx_sends q' rest
           end
  end.

(** The frames still queued afterwards. *)
Fixpoint tx_left (q : list sk_buff) (script : list tx_io) : list sk_buff :=
  match script with
  | [] => q
  | io :: rest =>
      if tx_should_stop io then q
      else match q with
           | [] => tx_left [] rest
           | _ :: q' => tx_left q' rest
           end
  end.

Fixpoint tx_verdict (script : list tx_io) : loop_exit :=
  match script with
  | [] => StillLooping
  | io :: rest => if tx_should_stop io then LoopExited else tx_verdict rest
  end.

(** The interface after the statistics updates of a list of sends. *)
Definition tx_credit (sends : list (sk_buff * Z)) (dev : net_device) : net_device :=
  fold_left (fun d x => if snd x <? 0 then d else tx_account (snd x) d) sends dev.



(** *** What a run of the RX loop is expected to do *)

Definition rx_frame (io : rx_io) : sk_buff :=
  {| skb_data := firstn (Z.to_nat (recvmsg_ret io)) (recvmsg_buf io) |}.

(** The frames an RX loop injects, each with the length that was read. *)
Fixpoint rx_deliveries (script : list rx_io) : list (Z * sk_buff) :=
  match script with
  | [] => []
  | io :: rest =>
      if rx_should_stop io then []
      else if recvmsg_ret io <=? 0 then
        if recvmsg_ret io =? - Errno.EAGAIN then rx_deliveries rest else []
      else if alloc_skb_ok io then
        (recvmsg_ret io, rx_frame io) :: rx_deliveries rest
      else rx_deliveries rest
  end.

Fixpoint rx_verdict (script : list rx_io) : loop_exit :=
  match script with
  | [] => StillLooping
  | io :: rest =>
      if rx_should_stop io then LoopExited
      else if recvmsg_ret io <=? 0 then
        if recvmsg_ret io =? - Errno.EAGAIN then rx_verdict rest else LoopExited
      else rx_verdict rest
  end.

Definition rx_credit (ds : list (Z * sk_buff)) (dev : net_device) : net_device :=
  fold_left (fun d x => rx_account (fst x) d) ds dev.


(** *** What an initialization is expected to return *)

(** The code of the first tested step that fails, 0 if none does. *)
Definition init_return (env : init_env) : Z :=
  if negb (kzalloc_ok env) then - Errno.ENOMEM
  else if negb (alloc_netdev_ok env) then - Errno.ENOMEM
  else if negb (register_netdev_ret env =? 0) then register_netdev_ret env
  else if negb (sock_create_ret env =? 0) then sock_create_ret env
  else if negb (kernel_connect_ret env =? 0) then kernel_connect_ret env
  else match kthread_run_rx_err env with
       | Some e => - Z.pos e
       | None =>
           match kthread_run_tx_err env with
           | Some e => - Z.pos e
           | None => 0
           end
       end.

(** The structure a successful initialization leaves. *)
Definition steady (p : module_params) : vsock_tap_bridge :=
  {| tap_dev := Some {| dev_name := tap_name p; stats := zero_stats |};
     vsock_sock := Some VsockStream;
     rx_thread := Task RX; tx_thread := Task TX;
     rx_queue := []; tx_queue := []; running := true |}.

(** Inputs used in examples. *)
Definition ether_device : netdev_setup :=
  {| flags := 0x1002; netdev_ops := None; dev_addr := [] |}.

Definition busy_dev : net_device :=
  {| dev_name := "tap0";
     stats := {| rx_packets := 7; rx_bytes := 700;
                 tx_packets := 2 ^ 64 - 1; tx_bytes := 100;
                 rx_dropped := 0; tx_dropped := 0 |} |}.

Definition busy_bridge : vsock_tap_bridge :=
  {| tap_dev := Some busy_dev; vsock_sock := Some VsockStream;
     rx_thread := Task RX; tx_thread := Task TX;
     rx_queue := []; tx_queue := [frame3; frame64]; running := true |}.

(** *** Lifecycle actions and handles *)

(** The actions that acquire or release a resource of the module. *)
Definition lifecycle_event (e : event) : bool :=
  match e with
  | EvKzalloc _ | EvAllocNetdev _ _ | EvRegisterNetdev _ | EvSockCreate _
  | EvKthreadRun _ _ | EvKthreadStop _ | EvSockRelease
  | EvUnregisterNetdev | EvFreeNetdev | EvKfree => true
  | _ => false
  end.

(** What the lifecycle owns in the structure: the socket, the two thread
    handles, the flag, and which interface there is. *)
Definition handles (br : vsock_tap_bridge) :=
  (vsock_sock br, rx_thread br, tx_thread br, running br,
   option_map dev_name (tap_dev br)).

(** Between [m] and [m'] no lifecycle action was taken and no handle
    changed. *)
Definition same_resources (m m' : machine) : Prop :=
  filter lifecycle_event (trace m') = filter lifecycle_event (trace m)
  /\ option_map handles (bridge m') = option_map handles (bridge m).

(** A session: the module is loaded, the stack submits frames, the RX and
    the TX thread run for a while, the module is unloaded. *)
Definition session (p : module_params) (env : init_env) (fs : list sk_buff)
    (rxs : list rx_io) (txs : list tx_io) : kern unit :=
  vsock_tap_bridge_init p env ;;
  xmit_all fs ;;
  rx_loop rxs ;;
  tx_loop txs ;;
  vsock_tap_bridge_exit.

(** ** Sanity checks on concrete runs *)

Example init_ok_run :
  vsock_tap_bridge_init default_params env_ok boot
  = Done 0 (at_bridge up_bridge
      (rev [EvInfo "Initializing"; EvKzalloc true;
            EvQueueInit RxQueue; EvQueueInit TxQueue; EvStoreRunning true;
            EvAllocNetdev "tap0" true; EvRegisterNetdev 0; EvSockCreate 0;
            EvConnect 5000 0; EvKthreadRun RX (Task RX); EvKthreadRun TX (Task TX);
            EvRtnlLock; EvDevOpen 0; EvRtnlUnlock;
            EvInfo "Successfully initialized"])).
Proof. reflexivity. Qed.

Example exit_up_run :
  vsock_tap_bridge_exit up
  = Done tt {| bridge := None;
               trace := rev [EvInfo "Cleaning up"; EvStoreRunning false;
                             EvKthreadStop (Task TX); EvKthreadStop (Task RX);
                             EvSockRelease;
                             EvRtnlLock; EvDevClose; EvRtnlUnlock;
                             EvUnregisterNetdev; EvFreeNetdev;
                             EvQueuePurge RxQueue []; EvQueuePurge TxQueue [];
                             EvKfree; EvInfo "Cleanup complete"] |}.
Proof. reflexivity. Qed.

(** ** The transmit upcall *)

Section Xmit.
Variable skb : sk_buff.

Lemma tap_xmit_absent (t : list event) :
  tap_xmit skb {| bridge := None; trace := t |}
  = Done NETDEV_TX_OK {| bridge := None; trace := EvKfreeSkb skb :: t |}.
Proof. reflexivity. Qed.

Lemma tap_xmit_stopped (br : vsock_tap_bridge) (t : list event) :
  running br = false ->
  tap_xmit skb (at_bridge br t)
  = Done NETDEV_TX_OK (at_bridge br (EvKfreeSkb skb :: t)).
Proof.
  intros Hrun. unfold tap_xmit, bind, read_global, at_bridge. simpl.
  rewrite Hrun. reflexivity.
Qed.

Lemma tap_xmit_running (br : vsock_tap_bridge) (t : list event) :
  running br = true ->
  tap_xmit skb (at_bridge br t)
  = Done NETDEV_TX_OK
      (at_bridge (set_tx_queue (tx_queue br ++ [skb]) br)
                 (EvWakeUp (tx_thread br) :: EvQueueTail TxQueue skb :: t)).
Proof.
  intros Hrun. unfold tap_xmit, bind, read_global, at_bridge. simpl.
  rewrite Hrun. reflexivity.
Qed.
End Xmit.

(** C9.  [tap_xmit] returns NETDEV_TX_OK for every frame and every state
    of the module; it has no loop and no wait.  With no bridge, or with a
    bridge whose [running] flag is clear, it frees the frame and leaves the
    structure as it was.  Otherwise the frame is the new tail of
    [tx_queue], behind the frames that were waiting, every other field of
    the structure is as before, and the only actions are the enqueue and
    the wake-up of the task in [tx_thread]. *)
Theorem tap_xmit_always_ok (skb : sk_buff) (m : machine) :
  exists m',
    tap_xmit skb m = Done NETDEV_TX_OK m'
    /\ (bridge m = None ->
        m' = {| bridge := None; trace := EvKfreeSkb skb :: trace m |})
    /\ (forall br, bridge m = Some br -> running br = false ->
        m' = {| bridge := Some br; trace := EvKfreeSkb skb :: trace m |})
    /\ (forall br, bridge m = Some br -> running br = true ->
        m' = {| bridge :=
                  Some {| tap_dev := tap_dev br;
                          vsock_sock := vsock_sock br;
                          rx_thread := rx_thread br;
                          tx_thread := tx_thread br;
                          rx_queue := rx_queue br;
                          tx_queue := (tx_queue br ++ [skb])%list;
                          running := true |};
                trace := EvWakeUp (tx_thread br)
                         :: EvQueueTail TxQueue skb :: trace m |}
        /\ option_map tx_queue (bridge m') = Some (tx_queue br ++ [skb])%list
        /\ option_map (fun b => last (tx_queue b) skb) (bridge m') = Some skb
        /\ option_map (fun b => List.length (tx_queue b)) (bridge m')
           = Some (S (List.length (tx_queue br)))).
Proof.
  destruct m as [[br|] t]; cbn [bridge trace].
  - destruct (running br) eqn:Hrun.
    + eexists. split; [apply (tap_xmit_running skb br t Hrun)|].
      split; [discriminate|]. split.
      * intros b Hb Hr. injection Hb as <-. congruence.
      * intros b Hb Hr. injection Hb as <-.
        destruct br as [dev sock rxt txt rxq txq run]. cbn in Hrun. subst run.
        cbn [at_bridge set_tx_queue bridge option_map tap_dev vsock_sock
             rx_thread tx_thread rx_queue tx_queue running].
        split; [reflexivity|]. split; [reflexivity|]. split.
        -- rewrite last_last. reflexivity.
        -- rewrite length_app. cbn [List.length]. f_equal. f_equal. lia.
    + eexists. split; [apply (tap_xmit_stopped skb br t Hrun)|].
      split; [discriminate|]. split.
      * intros b Hb _. injection Hb as <-. reflexivity.
      * intros b Hb Hr. injection Hb as <-. congruence.
  - eexists. split; [apply tap_xmit_absent|].
    split; [reflexivity|]. split; discriminate.
Qed.

Lemma tap_xmit_always_ok_witness :
  exists m',
    tap_xmit frame3 (at_bridge busy_bridge []) = Done NETDEV_TX_OK m'
    /\ m' = {| bridge :=
                 Some {| tap_dev := Some busy_dev;
                         vsock_sock := Some VsockStream;
                         rx_thread := Task RX;
                         tx_thread := Task TX;
                         rx_queue := [];
                         tx_queue := [frame3; frame64; frame3];
                         running := true |};
               trace := [EvWakeUp (Task TX); EvQueueTail TxQueue frame3] |}
    /\ option_map tx_queue (bridge m') = Some [frame3; frame64; frame3]
    /\ option_map (fun b => List.length (tx_queue b)) (bridge m') = Some 3%nat.
Proof.
  destruct (tap_xmit_always_ok frame3 (at_bridge busy_bridge []))
    as (m' & Hrun & _ & _ & Hq).
  destruct (Hq busy_bridge eq_refl eq_refl) as (Hm & Hqueue & _ & Hlen).
  exists m'. split; [exact Hrun|]. split; [exact Hm|].
  split; [exact Hqueue | exact Hlen].
Defined.

Lemma added_app (l t : list event) (g g' : option vsock_tap_bridge) :
  added {| bridge := g; trace := t |} {| bridge := g'; trace := l ++ t |} = l.
Proof.
  unfold added. simpl. rewrite length_app.
  replace (List.length l + List.length t - List.length t)%nat
    with (List.length l) by lia.
  rewrite firstn_app, firstn_all, Nat.sub_diag. simpl.
  apply app_nil_r.
Qed.

(** C7, refuted as stated: with the [running] flag clear the upcall frees
    the frame and neither drop counter of the interface moves. *)
Lemma tap_xmit_drop_not_counted : ~ xmit_drop_counted frame3 stopped.
Proof.
  intros H.
  apply (H NETDEV_TX_OK (at_bridge (set_running false up_bridge) [EvKfreeSkb frame3])).
  - reflexivity.
  - simpl. left. reflexivity.
  - reflexivity.
Qed.

(** C7, amended.  [tap_xmit] never touches the interface, so no counter
    changes, whatever happens to the frame.  The frame is discarded exactly
    when there is no bridge or its [running] flag is clear: it is freed and
    the structure is left as it was.  Otherwise the frame is appended at
    the tail of [tx_queue], behind every frame already queued. *)
Theorem tap_xmit_discards_uncounted (skb : sk_buff) (m : machine) :
  exists m',
    tap_xmit skb m = Done NETDEV_TX_OK m'
    /\ option_map tap_dev (bridge m') = option_map tap_dev (bridge m)
    /\ drop_counters m' = drop_counters m
    /\ ((option_map running (bridge m) <> Some true
         /\ added m m' = [EvKfreeSkb skb]
         /\ bridge m' = bridge m)
        \/ (option_map running (bridge m) = Some true
            /\ added m m' = [EvWakeUp (match bridge m with
                                       | Some br => tx_thread br
                                       | None => TaskNull
                                       end);
                             EvQueueTail TxQueue skb]
            /\ option_map tx_queue (bridge m')
               = option_map (fun br => (tx_queue br ++ [skb])%list) (bridge m))).
Proof.
  destruct m as [[br|] t].
  - destruct (running br) eqn:Hrun.
    + eexists. split; [apply (tap_xmit_running skb br t Hrun)|].
      split; [reflexivity|]. split; [reflexivity|].
      right. split; [simpl; congruence|].
      split; [|reflexivity].
      apply (added_app [EvWakeUp (tx_thread br); EvQueueTail TxQueue skb]).
    + eexists. split; [apply (tap_xmit_stopped skb br t Hrun)|].
      split; [reflexivity|]. split; [reflexivity|].
      left. split; [simpl; congruence|].
      split; [|reflexivity].
      apply (added_app [EvKfreeSkb skb]).
  - eexists. split; [apply tap_xmit_absent|].
    split; [reflexivity|]. split; [reflexivity|].
    left. split; [simpl; discriminate|].
    split; [|reflexivity].
    apply (added_app [EvKfreeSkb skb]).
Qed.

(** ** Cleanup *)

Lemma exit_absent (t : list event) :
  vsock_tap_bridge_exit {| bridge := None; trace := t |}
  = Done tt {| bridge := None; trace := EvInfo "Cleaning up" :: t |}.
Proof. reflexivity. Qed.

Lemma exit_present (br : vsock_tap_bridge) (t : list event) :
  vsock_tap_bridge_exit (at_bridge br t)
  = Done tt {| bridge := None; trace := rev (exit_history br) ++ t |}.
Proof.
  destruct br as [dev sock rxt txt rxq txq run].
  destruct dev, sock, rxt, txt; reflexivity.
Qed.

(** C8.  Cleanup always completes and leaves the global pointer NULL;
    called again, it logs its entry line, touches nothing else and
    releases nothing. *)
Theorem exit_idempotent (m : machine) :
  exists m1,
    vsock_tap_bridge_exit m = Done tt m1
    /\ bridge m1 = None
    /\ vsock_tap_bridge_exit m1
       = Done tt {| bridge := None; trace := EvInfo "Cleaning up" :: trace m1 |}.
Proof.
  destruct m as [[br|] t].
  - eexists. split; [apply exit_present|].
    split; [reflexivity | apply exit_absent].
  - eexists. split; [apply exit_absent|].
    split; [reflexivity | apply exit_absent].
Qed.

(** Two cleanups in a row of the bridge in steady state: every resource
    is released once, in the reverse order of acquisition. *)
Example exit_twice_ledger :
  ledger all_resources
    (history (final ((vsock_tap_bridge_exit ;; vsock_tap_bridge_exit) up)))
  = Some [].
Proof. reflexivity. Qed.

(** C4, refuted as stated: cleaning up the bridge in steady state stops
    the RX thread while the socket is still open. *)
Lemma exit_stops_rx_before_closing :
  closed_before_rx_stop false (history (final (vsock_tap_bridge_exit up))) = false.
Proof. reflexivity. Qed.

(** C4, amended.  Cleanup of an allocated bridge goes through its steps
    in the stated order: clear [running] first, then stop the threads (TX,
    then RX), then release the socket, then close, unregister and free the
    interface, then purge the queues, then free the structure and reset
    the global pointer; steps for absent handles are skipped.  The socket
    is released only after both threads have been stopped: nothing closes
    or shuts down the transport before the wait for the RX thread. *)
Theorem exit_order (br : vsock_tap_bridge) :
  vsock_tap_bridge_exit (at_bridge br [])
  = Done tt {| bridge := None; trace := rev (exit_history br) |}
  /\ ascending (phases (exit_history br)) = true
  /\ hd_error (phases (exit_history br)) = Some 1%nat
  /\ last (phases (exit_history br)) 0%nat = 6%nat
  /\ (rx_thread br = Task RX ->
      closed_before_rx_stop false (exit_history br) = false).
Proof.
  split; [rewrite exit_present, app_nil_r; reflexivity|].
  destruct br as [dev sock rxt txt rxq txq run]. unfold exit_history.
  cbn [tap_dev vsock_sock rx_thread tx_thread rx_queue tx_queue].
  split; [destruct dev, sock, rxt, txt; reflexivity|].
  split; [reflexivity|].
  split; [destruct dev, sock, rxt, txt; reflexivity|].
  intros Hrx. rewrite Hrx.
  destruct txt as [|e|[|]]; reflexivity.
Qed.

Lemma exit_order_witness :
  vsock_tap_bridge_exit up
  = Done tt {| bridge := None; trace := rev (exit_history up_bridge) |}
  /\ closed_before_rx_stop false (exit_history up_bridge) = false.
Proof.
  destruct (exit_order up_bridge) as (Hrun & _ & _ & _ & Hclosed).
  split; [exact Hrun | apply Hclosed; reflexivity].
Defined.

(** ** The RX worker *)

Section RxIteration.
Variables (br : vsock_tap_bridge) (t : list event) (io : rx_io).

Lemma rx_body_again :
  recvmsg_ret io = - Errno.EAGAIN ->
  rx_body io (at_bridge br t)
  = Done Continue
      (at_bridge br (EvRecvmsg (vsock_sock br) (recvmsg_ret io) :: t)).
Proof.
  intros H. unfold rx_body, bind, deref, at_bridge. simpl.
  rewrite H. reflexivity.
Qed.

Lemma rx_body_fatal :
  recvmsg_ret io <= 0 -> recvmsg_ret io <> - Errno.EAGAIN ->
  rx_body io (at_bridge br t)
  = Done Break
      (at_bridge br (EvErr "recvmsg error" (Some (recvmsg_ret io))
                     :: EvRecvmsg (vsock_sock br) (recvmsg_ret io) :: t)).
Proof.
  intros Hle Hne.
  unfold rx_body, bind, deref, at_bridge. simpl.
  destruct (Z.leb_spec (recvmsg_ret io) 0) as [_|Hgt]; [|lia].
  destruct (Z.eqb_spec (recvmsg_ret io) (-11)) as [He|_];
    [exfalso; apply Hne; exact He|].
  reflexivity.
Qed.

Lemma rx_body_no_skb :
  0 < recvmsg_ret io -> alloc_skb_ok io = false ->
  rx_body io (at_bridge br t)
  = Done Continue
      (at_bridge br (EvErr "failed to allocate skb" None
                     :: EvAllocSkb (recvmsg_ret io + 2) false
                     :: EvRecvmsg (vsock_sock br) (recvmsg_ret io) :: t)).
Proof.
  intros Hpos Hno.
  unfold rx_body, bind, deref, at_bridge. simpl.
  destruct (Z.leb_spec (recvmsg_ret io) 0) as [Hle|_]; [lia|].
  rewrite Hno. reflexivity.
Qed.

Lemma rx_body_inject (dev : net_device) :
  0 < recvmsg_ret io -> alloc_skb_ok io = true -> tap_dev br = Some dev ->
  rx_body io (at_bridge br t)
  = Done Continue
      (at_bridge (set_tap_dev (Some (rx_account (recvmsg_ret io) dev)) br)
         (EvNetifRx {| skb_data := firstn (Z.to_nat (recvmsg_ret io))
                                          (recvmsg_buf io) |}
          :: EvAllocSkb (recvmsg_ret io + 2) true
          :: EvRecvmsg (vsock_sock br) (recvmsg_ret io) :: t)).
Proof.
  intros Hpos Hok Hdev.
  unfold rx_body, bind, deref, at_bridge. simpl.
  destruct (Z.leb_spec (recvmsg_ret io) 0) as [Hle|_]; [lia|].
  rewrite Hok. simpl. rewrite Hdev. reflexivity.
Qed.

(** The loop head: with the stop request absent and the flag set, the
    loop runs the body and follows its verdict. *)
Lemma rx_loop_enter (rest : list rx_io) :
  rx_should_stop io = false -> running br = true ->
  rx_loop (io :: rest) (at_bridge br t)
  = match rx_body io (at_bridge br t) with
    | Done Continue m' => rx_loop rest m'
    | Done Break m' => Done LoopExited m'
    | Oops m' => Oops m'
    end.
Proof.
  intros Hstop Hrun. cbn [rx_loop]. rewrite Hstop.
  unfold bind at 1. unfold deref at 1. cbn [bridge at_bridge].
  rewrite Hrun. cbn [negb]. unfold bind at 1.
  destruct (rx_body io (at_bridge br t)) as [[|] m'|m']; reflexivity.
Qed.
End RxIteration.

(** C2, refuted as stated: a read of zero bytes ends the loop, and so does
    an interrupted read (-EINTR). *)
Lemma rx_zero_and_eintr_end_loop :
  ~ treated_as_transient zero_read up /\ ~ treated_as_transient eintr_read up.
Proof.
  split; intros [m' H]; vm_compute in H; discriminate H.
Qed.

(** C2, amended.  Only a read that returns -EAGAIN is transient: nothing
    is logged or changed and the worker goes to the next iteration, where
    [kthread_should_stop] and [running] are tested again.  A read that
    returns zero bytes or any other negative value, -EINTR included, is
    logged as a receive error and ends the loop. *)
Theorem rx_only_eagain_transient
    (br : vsock_tap_bridge) (t : list event) (io : rx_io) (rest : list rx_io) :
  rx_should_stop io = false ->
  running br = true ->
  (recvmsg_ret io = - Errno.EAGAIN ->
   rx_loop (io :: rest) (at_bridge br t)
   = rx_loop rest (at_bridge br (EvRecvmsg (vsock_sock br) (- Errno.EAGAIN) :: t)))
  /\ (recvmsg_ret io <= 0 -> recvmsg_ret io <> - Errno.EAGAIN ->
      rx_loop (io :: rest) (at_bridge br t)
      = Done LoopExited
          (at_bridge br (EvErr "recvmsg error" (Some (recvmsg_ret io))
                         :: EvRecvmsg (vsock_sock br) (recvmsg_ret io) :: t))).
Proof.
  intros Hstop Hrun. split.
  - intros Hlen. rewrite rx_loop_enter, rx_body_again by assumption.
    rewrite Hlen. reflexivity.
  - intros Hle Hne. rewrite rx_loop_enter, rx_body_fatal by assumption.
    reflexivity.
Qed.

Lemma rx_only_eagain_transient_witness :
  rx_loop [again_read; zero_read] up
  = rx_loop [zero_read] (at_bridge up_bridge [EvRecvmsg (Some VsockStream) (-11)])
  /\ rx_loop [zero_read; again_read] up
     = Done LoopExited
         (at_bridge up_bridge [EvErr "recvmsg error" (Some 0);
                               EvRecvmsg (Some VsockStream) 0])
  /\ rx_loop [eintr_read] up
     = Done LoopExited
         (at_bridge up_bridge [EvErr "recvmsg error" (Some (-4));
                               EvRecvmsg (Some VsockStream) (-4)]).
Proof.
  split; [|split].
  - apply (rx_only_eagain_transient up_bridge [] again_read [zero_read]);
      reflexivity.
  - apply (rx_only_eagain_transient up_bridge [] zero_read [again_read]);
      [reflexivity | reflexivity | cbv; discriminate | cbv; discriminate].
  - apply (rx_only_eagain_transient up_bridge [] eintr_read []);
      [reflexivity | reflexivity | cbv; discriminate | cbv; discriminate].
Defined.

(** C3, refuted as stated: after a connection reset on the read, the RX
    thread has returned and nothing in the module shows it: the structure
    is as before, [running] included, and the thread has only read and
    logged. *)
Lemma rx_fatal_read_not_propagated : ~ transport_loss_propagated reset_read up.
Proof. vm_compute. discriminate. Qed.

(** C3, amended.  When the read returns a negative value other than
    -EAGAIN, the RX thread logs the error, leaves its loop without looking
    at the rest of its input, and returns 0.  That is all: the bridge
    structure is unchanged, [running] stays set, and no action that the
    lifecycle or the TX thread could notice is taken. *)
Theorem rx_fatal_read_stops_worker_only
    (br : vsock_tap_bridge) (t : list event) (io : rx_io) (rest : list rx_io) :
  rx_should_stop io = false ->
  running br = true ->
  recvmsg_ret io < 0 ->
  recvmsg_ret io <> - Errno.EAGAIN ->
  let after :=
    at_bridge br (EvInfo "RX thread stopped"
                  :: EvErr "recvmsg error" (Some (recvmsg_ret io))
                  :: EvRecvmsg (vsock_sock br) (recvmsg_ret io)
                  :: EvInfo "RX thread started" :: t) in
  vsock_rx_thread (io :: rest) (at_bridge br t) = Done (Some 0) after
  /\ signalled (at_bridge br t) after = false.
Proof.
  intros Hstop Hrun Hneg Hne after. split.
  - unfold vsock_rx_thread. unfold bind at 1. unfold call at 1.
    cbn [bridge trace at_bridge].
    change {| bridge := Some br; trace := EvInfo "RX thread started" :: t |}
      with (at_bridge br (EvInfo "RX thread started" :: t)).
    unfold bind at 1.
    rewrite rx_loop_enter, rx_body_fatal by (assumption || lia).
    reflexivity.
  - unfold signalled, after. cbn [bridge at_bridge].
    rewrite Bool.eqb_reflx. cbn [negb orb].
    pose proof (added_app [EvInfo "RX thread stopped";
                           EvErr "recvmsg error" (Some (recvmsg_ret io));
                           EvRecvmsg (vsock_sock br) (recvmsg_ret io);
                           EvInfo "RX thread started"] t (Some br) (Some br))
      as Hadded.
    cbn [app] in Hadded. unfold at_bridge. rewrite Hadded.
    reflexivity.
Qed.

Lemma rx_fatal_read_stops_worker_only_witness :
  vsock_rx_thread [reset_read; again_read] up
  = Done (Some 0)
      (at_bridge up_bridge [EvInfo "RX thread stopped";
                            EvErr "recvmsg error" (Some (-104));
                            EvRecvmsg (Some VsockStream) (-104);
                            EvInfo "RX thread started"]).
Proof.
  apply (rx_fatal_read_stops_worker_only up_bridge [] reset_read [again_read]);
    [reflexivity | reflexivity | reflexivity | cbv; discriminate].
Defined.

(** C10.  When [dev_alloc_skb] fails for a frame that was read, the RX
    worker logs, injects nothing, leaves the bridge structure (and with it
    all statistics) as it was, and goes on to the next loop iteration. *)
Theorem rx_alloc_failure_not_fatal
    (br : vsock_tap_bridge) (t : list event) (io : rx_io) (rest : list rx_io) :
  rx_should_stop io = false ->
  running br = true ->
  0 < recvmsg_ret io ->
  alloc_skb_ok io = false ->
  rx_loop (io :: rest) (at_bridge br t)
  = rx_loop rest
      (at_bridge br (EvErr "failed to allocate skb" None
                     :: EvAllocSkb (recvmsg_ret io + 2) false
                     :: EvRecvmsg (vsock_sock br) (recvmsg_ret io) :: t)).
Proof.
  intros Hstop Hrun Hpos Hno.
  rewrite rx_loop_enter, rx_body_no_skb by assumption.
  reflexivity.
Qed.

Lemma rx_alloc_failure_not_fatal_witness :
  rx_loop [starved_read] up
  = Done StillLooping
      (at_bridge up_bridge [EvErr "failed to allocate skb" None;
                            EvAllocSkb 5 false;
                            EvRecvmsg (Some VsockStream) 3]).
Proof.
  apply (rx_alloc_failure_not_fatal up_bridge [] starved_read []); reflexivity.
Defined.

(** ** The TX worker *)

Section TxIteration.
Variables (br : vsock_tap_bridge) (t : list event) (io : tx_io).

Lemma tx_body_idle :
  tx_queue br = [] ->
  tx_body io (at_bridge br t)
  = Done tt (at_bridge br (EvScheduleTimeout :: EvDequeue TxQueue None :: t)).
Proof.
  intros Hq. unfold tx_body, bind, deref, at_bridge. simpl.
  rewrite Hq. reflexivity.
Qed.

Lemma tx_body_send_error (skb : sk_buff) (q : list sk_buff) :
  tx_queue br = skb :: q ->
  sendmsg_ret io < 0 ->
  tx_body io (at_bridge br t)
  = Done tt
      (at_bridge (set_tx_queue q br)
         (EvKfreeSkb skb
          :: EvErr "sendmsg error" (Some (sendmsg_ret io))
          :: EvSendmsg (vsock_sock br) skb (sendmsg_ret io)
          :: EvDequeue TxQueue (Some skb) :: t)).
Proof.
  intros Hq Hneg. unfold tx_body, bind, deref, at_bridge. simpl.
  rewrite Hq. simpl.
  destruct (Z.ltb_spec (sendmsg_ret io) 0) as [_|Hge]; [|lia].
  reflexivity.
Qed.

Lemma tx_body_sent (skb : sk_buff) (q : list sk_buff) (dev : net_device) :
  tx_queue br = skb :: q ->
  tap_dev br = Some dev ->
  0 <= sendmsg_ret io ->
  tx_body io (at_bridge br t)
  = Done tt
      (at_bridge (set_tap_dev (Some (tx_account (sendmsg_ret io) dev))
                              (set_tx_queue q br))
         (EvKfreeSkb skb
          :: EvSendmsg (vsock_sock br) skb (sendmsg_ret io)
          :: EvDequeue TxQueue (Some skb) :: t)).
Proof.
  intros Hq Hdev Hge. unfold tx_body, bind, deref, at_bridge. simpl.
  rewrite Hq. simpl.
  destruct (Z.ltb_spec (sendmsg_ret io) 0) as [Hlt|_]; [lia|].
  simpl. rewrite Hdev. reflexivity.
Qed.

Lemma tx_loop_enter (rest : list tx_io) :
  tx_should_stop io = false -> running br = true ->
  tx_loop (io :: rest) (at_bridge br t)
  = match tx_body io (at_bridge br t) with
    | Done _ m' => tx_loop rest m'
    | Oops m' => Oops m'
    end.
Proof.
  intros Hstop Hrun. cbn [tx_loop]. rewrite Hstop.
  unfold bind at 1. unfold deref at 1. cbn [bridge at_bridge].
  rewrite Hrun. cbn [negb]. unfold bind at 1.
  destruct (tx_body io (at_bridge br t)) as [[] m'|m']; reflexivity.
Qed.
End TxIteration.




(** ** Initialization *)

(** A failure at any step whose result the code tests unwinds everything
    acquired so far, newest first, resets the global pointer and returns a
    non-zero code. *)
Lemma init_checked_failure_unwinds (p : module_params) (env : init_env) :
  checked_step_fails env = true ->
  exists r m',
    vsock_tap_bridge_init p env boot = Done r m'
    /\ r <> 0
    /\ bridge m' = None
    /\ ledger [] (history m') = Some [].
Proof.
  destruct env as [kz an rr sr cr rxe txe dr].
  unfold checked_step_fails. cbn [kzalloc_ok alloc_netdev_ok register_netdev_ret
    sock_create_ret kernel_connect_ret kthread_run_rx_err kthread_run_tx_err].
  intros Hfail.
  destruct kz; [|unwound].
  destruct an; [|unwound].
  destruct rr as [|r|r]; [|unwound ..].
  destruct sr as [|r|r]; [|unwound ..].
  destruct cr as [|r|r]; [|unwound ..].
  destruct rxe as [e|]; [unwound|].
  destruct txe as [e|]; [unwound|].
  discriminate Hfail.
Qed.

(** When every tested step succeeds the initialization returns 0 holding
    all six resources, whatever [dev_open] returned. *)
Lemma init_success (p : module_params) (env : init_env) :
  checked_step_fails env = false ->
  exists m',
    vsock_tap_bridge_init p env boot = Done 0 m'
    /\ bridge m'
       = Some {| tap_dev := Some {| dev_name := tap_name p; stats := zero_stats |};
                 vsock_sock := Some VsockStream;
                 rx_thread := Task RX; tx_thread := Task TX;
                 rx_queue := []; tx_queue := []; running := true |}
    /\ In (EvDevOpen (dev_open_ret env)) (history m')
    /\ ledger [] (history m') = Some all_resources.
Proof.
  destruct env as [kz an rr sr cr rxe txe dr].
  unfold checked_step_fails. cbn [kzalloc_ok alloc_netdev_ok register_netdev_ret
    sock_create_ret kernel_connect_ret kthread_run_rx_err kthread_run_tx_err
    dev_open_ret].
  intros Hok.
  destruct kz; [|discriminate Hok].
  destruct an; [|discriminate Hok].
  destruct rr as [|r|r]; [|discriminate Hok ..].
  destruct sr as [|r|r]; [|discriminate Hok ..].
  destruct cr as [|r|r]; [|discriminate Hok ..].
  destruct rxe; [discriminate Hok|].
  destruct txe; [discriminate Hok|].
  eexists. split; [lazy; reflexivity|]. split; [reflexivity|]. split.
  - unfold history. cbn. tauto.
  - reflexivity.
Qed.

(** C6, the code at the failing input: [dev_open] fails with -EBUSY, yet
    the initialization reports success, tears nothing down and keeps the
    bridge, both threads, the socket and the registered interface. *)
Theorem init_ignores_dev_open_failure :
  exists m',
    vsock_tap_bridge_init default_params env_dev_open_fails boot = Done 0 m'
    /\ bridge m' = Some up_bridge
    /\ In (EvDevOpen (-16)) (history m')
    /\ ledger [] (history m') = Some all_resources.
Proof.
  eexists. split; [lazy; reflexivity|]. split; [reflexivity|]. split.
  - unfold history. cbn. tauto.
  - reflexivity.
Qed.

(** ** The [running] flag *)

Lemma same_flag_refl (m : machine) : same_flag m m.
Proof. split; reflexivity. Qed.

Lemma same_flag_trans (a b c : machine) :
  same_flag a b -> same_flag b c -> same_flag a c.
Proof.
  intros [H1 H2] [H3 H4]. split; congruence.
Qed.

Lemma same_flag_log (m : machine) (msg : string) :
  same_flag m {| bridge := bridge m; trace := EvInfo msg :: trace m |}.
Proof. split; reflexivity. Qed.

Lemma rx_body_same_flag (io : rx_io) (m : machine) :
  same_flag m (final (rx_body io m)).
Proof.
  destruct m as [[br|] t]; [|apply same_flag_refl].
  unfold rx_body, bind, deref. cbn [bridge].
  unfold call at 1. cbn [bridge trace].
  destruct (recvmsg_ret io <=? 0).
  - destruct (recvmsg_ret io =? - Errno.EAGAIN); split; reflexivity.
  - unfold call at 1. cbn [bridge trace].
    destruct (alloc_skb_ok io); cbn [negb bridge].
    + destruct (tap_dev br); split; reflexivity.
    + split; reflexivity.
Qed.

Lemma tx_body_same_flag (io : tx_io) (m : machine) :
  same_flag m (final (tx_body io m)).
Proof.
  destruct m as [[br|] t]; [|apply same_flag_refl].
  unfold tx_body, bind, deref. cbn [bridge].
  destruct (tx_queue br) as [|skb q]; [split; reflexivity|].
  unfold update at 1. cbn [bridge trace].
  unfold call at 1. cbn [bridge trace].
  unfold call at 1. cbn [bridge trace].
  destruct (sendmsg_ret io <? 0); [split; reflexivity|].
  cbn [bridge set_tx_queue tap_dev].
  destruct (tap_dev br); split; reflexivity.
Qed.

Lemma rx_loop_same_flag (script : list rx_io) :
  forall m, same_flag m (final (rx_loop script m)).
Proof.
  induction script as [|io rest IH]; intros m; [apply same_flag_refl|].
  cbn [rx_loop]. destruct (rx_should_stop io); [apply same_flag_refl|].
  unfold bind at 1. unfold deref at 1.
  destruct (bridge m) as [br|] eqn:Hbr; [|apply same_flag_refl].
  destruct (running br); cbn [negb]; [|apply same_flag_refl].
  unfold bind at 1.
  pose proof (rx_body_same_flag io m) as Hbody.
  destruct (rx_body io m) as [[|] m'|m']; cbn [final] in Hbody.
  - apply (same_flag_trans m m'); [exact Hbody | apply IH].
  - exact Hbody.
  - exact Hbody.
Qed.

Lemma tx_loop_same_flag (script : list tx_io) :
  forall m, same_flag m (final (tx_loop script m)).
Proof.
  induction script as [|io rest IH]; intros m; [apply same_flag_refl|].
  cbn [tx_loop]. destruct (tx_should_stop io); [apply same_flag_refl|].
  unfold bind at 1. unfold deref at 1.
  destruct (bridge m) as [br|] eqn:Hbr; [|apply same_flag_refl].
  destruct (running br); cbn [negb]; [|apply same_flag_refl].
  unfold bind at 1.
  pose proof (tx_body_same_flag io m) as Hbody.
  destruct (tx_body io m) as [[] m'|m']; cbn [final] in Hbody.
  - apply (same_flag_trans m m'); [exact Hbody | apply IH].
  - exact Hbody.
Qed.

Lemma rx_thread_same_flag (script : list rx_io) (m : machine) :
  same_flag m (final (vsock_rx_thread script m)).
Proof.
  unfold vsock_rx_thread. unfold bind at 1. unfold call at 1.
  set (m0 := {| bridge := bridge m; trace := EvInfo "RX thread started" :: trace m |}).
  assert (H0 : same_flag m m0) by apply same_flag_log.
  pose proof (rx_loop_same_flag script m0) as Hloop.
  unfold bind at 1.
  destruct (rx_loop script m0) as [[|] m'|m']; cbn [final] in Hloop |- *.
  - apply (same_flag_trans m m0); [exact H0|].
    apply (same_flag_trans m0 m'); [exact Hloop|].
    apply same_flag_log.
  - apply (same_flag_trans m m0); assumption.
  - apply (same_flag_trans m m0); assumption.
Qed.

Lemma tx_thread_same_flag (script : list tx_io) (m : machine) :
  same_flag m (final (vsock_tx_thread script m)).
Proof.
  unfold vsock_tx_thread. unfold bind at 1. unfold call at 1.
  set (m0 := {| bridge := bridge m; trace := EvInfo "TX thread started" :: trace m |}).
  assert (H0 : same_flag m m0) by apply same_flag_log.
  pose proof (tx_loop_same_flag script m0) as Hloop.
  unfold bind at 1.
  destruct (tx_loop script m0) as [[|] m'|m']; cbn [final] in Hloop |- *.
  - apply (same_flag_trans m m0); [exact H0|].
    apply (same_flag_trans m0 m'); [exact Hloop|].
    apply same_flag_log.
  - apply (same_flag_trans m m0); assumption.
  - apply (same_flag_trans m m0); assumption.
Qed.

(** The flag stores of an initialization: one store of [true] if the
    structure was allocated, none otherwise; and the check "set only after
    a successful connect" fails on every run that allocates. *)
Lemma init_running_stores (p : module_params) (env : init_env) :
  let h := history (final (vsock_tap_bridge_init p env boot)) in
  running_stores h = (if kzalloc_ok env then [true] else [])
  /\ set_only_after_connect false h = negb (kzalloc_ok env)
  /\ exists rest,
       h = ([EvInfo "Initializing"; EvKzalloc (kzalloc_ok env)]
            ++ (if kzalloc_ok env
                then [EvQueueInit RxQueue; EvQueueInit TxQueue;
                      EvStoreRunning true;
                      EvAllocNetdev (tap_name p) (alloc_netdev_ok env)]
                else [])
            ++ rest)%list.
Proof.
  destruct env as [kz an rr sr cr rxe txe dr].
  destruct kz; [|repeat split; exists []; reflexivity].
  destruct an; [|repeat split; eexists; lazy; reflexivity].
  destruct rr as [|r|r]; [|repeat split; eexists; lazy; reflexivity ..].
  destruct sr as [|r|r]; [|repeat split; eexists; lazy; reflexivity ..].
  destruct cr as [|r|r]; [|repeat split; eexists; lazy; reflexivity ..].
  destruct rxe as [e|]; [repeat split; eexists; lazy; reflexivity|].
  destruct txe as [e|]; repeat split; eexists; lazy; reflexivity.
Qed.

(** C1, refuted as stated: in an initialization whose connect is refused,
    [running] has been set to true all the same, before the connect was
    attempted. *)
Lemma running_set_before_connect :
  set_only_after_connect false
    (history (final (vsock_tap_bridge_init default_params env_connect_refused boot)))
  = false.
Proof. reflexivity. Qed.

(** C1, amended.  [running] is set to true once, by the initialization,
    right after the structure has been allocated and its queues
    initialised: before the interface is created and before the connect
    is attempted, whether or not the connect succeeds later; a failed
    initialization unwinds without clearing it.  It is set to false only
    by the cleanup, exactly once and before any teardown step.  The two
    worker threads read it and never store to it. *)
Theorem running_flag_discipline :
  (forall p env,
     let h := history (final (vsock_tap_bridge_init p env boot)) in
     running_stores h = (if kzalloc_ok env then [true] else [])
     /\ exists rest,
          h = ([EvInfo "Initializing"; EvKzalloc (kzalloc_ok env)]
               ++ (if kzalloc_ok env
                   then [EvQueueInit RxQueue; EvQueueInit TxQueue;
                         EvStoreRunning true;
                         EvAllocNetdev (tap_name p) (alloc_netdev_ok env)]
                   else [])
               ++ rest)%list)
  /\ (forall br,
        exists rest,
          history (final (vsock_tap_bridge_exit (at_bridge br [])))
          = EvInfo "Cleaning up" :: EvStoreRunning false :: rest
          /\ running_stores rest = [])
  /\ (forall script m, same_flag m (final (vsock_rx_thread script m)))
  /\ (forall script m, same_flag m (final (vsock_tx_thread script m))).
Proof.
  split; [|split; [|split]].
  - intros p env h.
    destruct (init_running_stores p env) as (Hstores & _ & Hprefix).
    split; assumption.
  - intros br. rewrite exit_present. cbn [final]. unfold history. cbn [trace].
    rewrite app_nil_r, rev_involutive. unfold exit_history.
    eexists. split; [reflexivity|].
    destruct br as [dev sock rxt txt rxq txq run].
    destruct dev, sock, rxt, txt; reflexivity.
  - intros script m. apply rx_thread_same_flag.
  - intros script m. apply tx_thread_same_flag.
Qed.

(** ** Two end-to-end runs *)

(** A 3-byte read is injected as a 3-byte frame and counted. *)
Example rx_inject_run :
  rx_loop [read_of 3] up
  = Done StillLooping
      (at_bridge
         (set_tap_dev
            (Some {| dev_name := "tap0";
                     stats := {| rx_packets := 1; rx_bytes := 3;
                                 tx_packets := 0; tx_bytes := 0;
                                 rx_dropped := 0; tx_dropped := 0 |} |})
            up_bridge)
         [EvNetifRx frame3; EvAllocSkb 5 true; EvRecvmsg (Some VsockStream) 3]).
Proof. reflexivity. Qed.

(** Two frames submitted through the upcall leave in submission order;
    the stop request then ends the thread. *)
Example xmit_then_tx_run :
  history (final ((tap_xmit frame3 ;; tap_xmit frame64 ;;
                   vsock_tx_thread [send_of 3; send_of 64;
                                    {| tx_should_stop := true; sendmsg_ret := 0 |}])
                    up))
  = [EvQueueTail TxQueue frame3; EvWakeUp (Task TX);
     EvQueueTail TxQueue frame64; EvWakeUp (Task TX);
     EvInfo "TX thread started";
     EvDequeue TxQueue (Some frame3);
     EvSendmsg (Some VsockStream) frame3 3; EvKfreeSkb frame3;
     EvDequeue TxQueue (Some frame64);
     EvSendmsg (Some VsockStream) frame64 64; EvKfreeSkb frame64;
     EvInfo "TX thread stopped"].
Proof. reflexivity. Qed.

(** After the RX thread has died on a reset connection, the upcall still
    queues and the TX thread still writes to the dead transport. *)
Example tx_keeps_sending_after_rx_death :
  history (final ((vsock_rx_thread [reset_read] ;;
                   tap_xmit frame3 ;;
                   vsock_tx_thread [send_of (-32)]) up))
  = [EvInfo "RX thread started";
     EvRecvmsg (Some VsockStream) (-104);
     EvErr "recvmsg error" (Some (-104));
     EvInfo "RX thread stopped";
     EvQueueTail TxQueue frame3; EvWakeUp (Task TX);
     EvInfo "TX thread started";
     EvDequeue TxQueue (Some frame3);
     EvSendmsg (Some VsockStream) frame3 (-32);
     EvErr "sendmsg error" (Some (-32));
     EvKfreeSkb frame3].
Proof. reflexivity. Qed.

(** A refused connect: the unwinding lemma at a concrete environment. *)
Example init_connect_refused_unwinds :
  exists r m',
    vsock_tap_bridge_init default_params env_connect_refused boot = Done r m'
    /\ r <> 0
    /\ bridge m' = None
    /\ ledger [] (history m') = Some [].
Proof.
  apply (init_checked_failure_unwinds default_params env_connect_refused).
  reflexivity.
Qed.

(** ** The setup callback *)

Lemma u32_bits (z : Z) (n : Z) :
  0 <= n -> Z.testbit (u32 z) n = (n <? 32) && Z.testbit z n.
Proof.
  intros Hn. unfold u32.
  destruct (Z.ltb_spec n 32) as [Hlt|Hge].
  - rewrite Z.mod_pow2_bits_low by lia. reflexivity.
  - rewrite Z.mod_pow2_bits_high by lia. reflexivity.
Qed.

Lemma u32_range (z : Z) : 0 <= u32 z < 2 ^ 32.
Proof. unfold u32. apply Z.mod_pos_bound. reflexivity. Qed.

Lemma testbit_above (z n : Z) :
  0 <= z < 2 ^ 32 -> 32 <= n -> Z.testbit z n = false.
Proof.
  intros Hz Hn.
  destruct (Z.eq_dec z 0) as [->|Hnz]; [apply Z.testbit_0_l|].
  apply Z.bits_above_log2; [lia|].
  assert (Z.log2 z < 32) by (apply Z.log2_lt_pow2; lia).
  lia.
Qed.

(** X1.  [tap_setup] turns the NOARP flag on and the MULTICAST flag off
    and leaves every other flag as [ether_setup] set it; the flags stay a
    32-bit value; the transmit operation of the interface is [tap_xmit]. *)
Theorem tap_setup_flags (dev : netdev_setup) (addr : list Byte.byte) :
  0 <= flags dev < 2 ^ 32 ->
  let dev' := tap_setup dev addr in
  0 <= flags dev' < 2 ^ 32
  /\ (forall n, 0 <= n ->
        Z.testbit (flags dev') n
        = if n =? 7 then true
          else if n =? 12 then false
          else Z.testbit (flags dev) n)
  /\ option_map ndo_start_xmit (netdev_ops dev') = Some tap_xmit.
Proof.
  intros Hf dev'. split; [apply u32_range|]. split; [|reflexivity].
  intros n Hn. unfold dev', tap_setup. cbn [flags].
  rewrite u32_bits, Z.land_spec, u32_bits, Z.lor_spec, Z.lnot_spec by assumption.
  destruct (Z.ltb_spec n 32) as [Hlt|Hge].
  - destruct (Z.eqb_spec n 7) as [->|H7].
    { change (Z.testbit Iff.IFF_NOARP 7) with true.
      change (Z.testbit Iff.IFF_MULTICAST 7) with false.
      rewrite orb_true_r. reflexivity. }
    destruct (Z.eqb_spec n 12) as [->|H12].
    + change (Z.testbit Iff.IFF_MULTICAST 12) with true.
      cbn [negb]. rewrite andb_false_r. reflexivity.
    + assert (Hnoarp : Z.testbit Iff.IFF_NOARP n = false).
      { change Iff.IFF_NOARP with (2 ^ 7). apply Z.pow2_bits_false. lia. }
      assert (Hmc : Z.testbit Iff.IFF_MULTICAST n = false).
      { change Iff.IFF_MULTICAST with (2 ^ 12). apply Z.pow2_bits_false. lia. }
      rewrite Hnoarp, Hmc. cbn. rewrite orb_false_r, andb_true_r. reflexivity.
  - cbn [andb].
    destruct (Z.eqb_spec n 7) as [->|H7]; [lia|].
    destruct (Z.eqb_spec n 12) as [->|H12]; [lia|].
    symmetry. apply testbit_above; assumption.
Qed.

Lemma tap_setup_flags_witness :
  let dev' := tap_setup ether_device [] in
  0 <= flags dev' < 2 ^ 32
  /\ (forall n, 0 <= n ->
        Z.testbit (flags dev') n
        = if n =? 7 then true
          else if n =? 12 then false
          else Z.testbit (flags ether_device) n)
  /\ option_map ndo_start_xmit (netdev_ops dev') = Some tap_xmit.
Proof.
  apply (tap_setup_flags ether_device []).
  cbv. split; [discriminate | reflexivity].
Defined.

(** On the flags [ether_setup] gives an Ethernet device (BROADCAST and
    MULTICAST) the callback leaves BROADCAST and NOARP. *)
Example tap_setup_ether : flags (tap_setup ether_device []) = 0x82.
Proof. reflexivity. Qed.

(** ** Frames through the upcall and the TX loop *)

Lemma set_tx_queue_same (br : vsock_tap_bridge) :
  set_tx_queue (tx_queue br) br = br.
Proof. destruct br; reflexivity. Qed.

Lemma set_tap_dev_same (br : vsock_tap_bridge) (dev : net_device) :
  tap_dev br = Some dev -> set_tap_dev (Some dev) br = br.
Proof. destruct br; cbn. intros ->. reflexivity. Qed.

Lemma xmit_all_running (fs : list sk_buff) :
  forall br t,
    running br = true ->
    exists t',
      xmit_all fs (at_bridge br t)
      = Done tt (at_bridge (set_tx_queue (tx_queue br ++ fs) br) t')
      /\ freed t' = freed t
      /\ sent t' = sent t
      /\ wakeups t' = (wakeups t + List.length fs)%nat.
Proof.
  induction fs as [|f rest IH]; intros br t Hrun.
  - exists t. cbn [xmit_all]. rewrite app_nil_r, set_tx_queue_same.
    repeat split. cbn. lia.
  - cbn [xmit_all]. unfold bind at 1.
    rewrite (tap_xmit_running f br t Hrun).
    destruct (IH (set_tx_queue (tx_queue br ++ [f]) br)
                 (EvWakeUp (tx_thread br) :: EvQueueTail TxQueue f :: t) Hrun)
      as (t' & Hrun' & Hfreed & Hsent & Hwake).
    exists t'. split.
    + rewrite Hrun'. cbn [tx_queue set_tx_queue]. rewrite <- app_assoc.
      reflexivity.
    + split; [exact Hfreed|]. split; [exact Hsent|].
      rewrite Hwake. cbn. lia.
Qed.



Lemma tx_sends_left (script : list tx_io) :
  forall q, (map fst (tx_sends q script) ++ tx_left q script)%list = q.
Proof.
  induction script as [|io rest IH]; intros q; [reflexivity|].
  cbn [tx_sends tx_left]. destruct (tx_should_stop io); [reflexivity|].
  destruct q as [|skb q']; [apply IH|].
  cbn [map fst app]. rewrite IH. reflexivity.
Qed.

(** The TX loop against its expected behaviour. *)
Lemma tx_loop_spec (script : list tx_io) :
  forall br t dev,
    running br = true ->
    tap_dev br = Some dev ->
    exists t',
      tx_loop script (at_bridge br t)
      = Done (tx_verdict script)
          (at_bridge
             (set_tap_dev (Some (tx_credit (tx_sends (tx_queue br) script) dev))
                (set_tx_queue (tx_left (tx_queue br) script) br))
             t')
      /\ sent t' = (sent t ++ tx_sends (tx_queue br) script)%list
      /\ freed t' = (freed t ++ map fst (tx_sends (tx_queue br) script))%list
      /\ injected t' = injected t.
Proof.
  induction script as [|io rest IH]; intros br t dev Hrun Hdev.
  - exists t. cbn [tx_loop tx_sends tx_left tx_verdict tx_credit fold_left map].
    rewrite set_tx_queue_same, (set_tap_dev_same br dev Hdev), !app_nil_r.
    repeat split.
  - cbn [tx_sends tx_left tx_verdict].
    destruct (tx_should_stop io) eqn:Hstop.
    + exists t. cbn [tx_loop]. rewrite Hstop.
      cbn [tx_credit fold_left map].
      rewrite set_tx_queue_same, (set_tap_dev_same br dev Hdev), !app_nil_r.
      repeat split.
    + rewrite (tx_loop_enter br t io rest Hstop Hrun).
      destruct (tx_queue br) as [|skb q] eqn:Hq.
      * rewrite (tx_body_idle br t io Hq).
        destruct (IH br (EvScheduleTimeout :: EvDequeue TxQueue None :: t) dev
                    Hrun Hdev) as (t' & Hloop & Hsent & Hfreed & Hinj).
        rewrite Hq in Hloop, Hsent, Hfreed.
        exists t'. repeat split; assumption.
      * destruct (Z.ltb_spec (sendmsg_ret io) 0) as [Hneg|Hge].
        -- rewrite (tx_body_send_error br t io skb q Hq Hneg).
           destruct (IH (set_tx_queue q br)
                       (EvKfreeSkb skb
                        :: EvErr "sendmsg error" (Some (sendmsg_ret io))
                        :: EvSendmsg (vsock_sock br) skb (sendmsg_ret io)
                        :: EvDequeue TxQueue (Some skb) :: t) dev Hrun Hdev)
             as (t' & Hloop & Hsent & Hfreed & Hinj).
           cbn [tx_queue set_tx_queue] in Hloop, Hsent, Hfreed.
           exists t'. split; [|split; [|split]].
           ++ rewrite Hloop. unfold tx_credit at 2. cbn [fold_left snd].
              destruct (Z.ltb_spec (sendmsg_ret io) 0) as [_|Hge]; [|lia].
              reflexivity.
           ++ rewrite Hsent. cbn [sent]. rewrite <- app_assoc. reflexivity.
           ++ rewrite Hfreed. cbn [freed map fst]. rewrite <- app_assoc.
              reflexivity.
           ++ exact Hinj.
        -- rewrite (tx_body_sent br t io skb q dev Hq Hdev Hge).
           destruct (IH (set_tap_dev (Some (tx_account (sendmsg_ret io) dev))
                                     (set_tx_queue q br))
                       (EvKfreeSkb skb
                        :: EvSendmsg (vsock_sock br) skb (sendmsg_ret io)
                        :: EvDequeue TxQueue (Some skb) :: t)
                       (tx_account (sendmsg_ret io) dev) Hrun eq_refl)
             as (t' & Hloop & Hsent & Hfreed & Hinj).
           cbn [tx_queue set_tx_queue set_tap_dev] in Hloop, Hsent, Hfreed.
           exists t'. split; [|split; [|split]].
           ++ rewrite Hloop. unfold tx_credit at 2. cbn [fold_left snd].
              destruct (Z.ltb_spec (sendmsg_ret io) 0) as [Hlt|_]; [lia|].
              reflexivity.
           ++ rewrite Hsent. cbn [sent]. rewrite <- app_assoc. reflexivity.
           ++ rewrite Hfreed. cbn [freed map fst]. rewrite <- app_assoc.
              reflexivity.
           ++ exact Hinj.
Qed.

(** X3.  The TX loop neither loses nor duplicates a frame: whatever the
    transport answers and however long the loop runs, the frames it has
    handed to [kernel_sendmsg] followed by the frames still queued are the
    original queue, so frames leave in queue order, one send each; and
    every frame it has sent, successfully or not, has been released once.
    Nothing is injected on the receive side. *)
Theorem tx_frames_conserved
    (script : list tx_io) (br : vsock_tap_bridge) (t : list event)
    (dev : net_device) :
  running br = true ->
  tap_dev br = Some dev ->
  exists v m' S left,
    tx_loop script (at_bridge br t) = Done v m'
    /\ sent (trace m') = (sent t ++ S)%list
    /\ freed (trace m') = (freed t ++ map fst S)%list
    /\ injected (trace m') = injected t
    /\ option_map tx_queue (bridge m') = Some left
    /\ (map fst S ++ left)%list = tx_queue br.
Proof.
  intros Hrun Hdev.
  destruct (tx_loop_spec script br t dev Hrun Hdev)
    as (t' & Hloop & Hsent & Hfreed & Hinj).
  exists (tx_verdict script). eexists.
  exists (tx_sends (tx_queue br) script), (tx_left (tx_queue br) script).
  split; [exact Hloop|].
  cbn [trace bridge at_bridge option_map tx_queue set_tap_dev set_tx_queue].
  repeat split; try assumption.
  apply tx_sends_left.
Qed.

Lemma tx_frames_conserved_witness :
  exists v m' S left,
    tx_loop [send_of (-32)] (at_bridge busy_bridge []) = Done v m'
    /\ sent (trace m') = S
    /\ freed (trace m') = map fst S
    /\ injected (trace m') = []
    /\ option_map tx_queue (bridge m') = Some left
    /\ (map fst S ++ left)%list = [frame3; frame64].
Proof.
  apply (tx_frames_conserved [send_of (-32)] busy_bridge [] busy_dev);
    reflexivity.
Defined.







(** The packet counter at its maximum wraps to zero on the next
    successful send. *)
Example tx_packets_wrap :
  option_map (fun b => option_map (fun d => tx_packets (stats d)) (tap_dev b))
    (bridge (final (tx_loop [send_of 3] (at_bridge busy_bridge []))))
  = Some (Some 0).
Proof. reflexivity. Qed.

Lemma tx_sends_all (script : list tx_io) :
  forall q,
    Forall (fun io => tx_should_stop io = false) script ->
    (List.length q <= List.length script)%nat ->
    map fst (tx_sends q script) = q
    /\ tx_left q script = []
    /\ tx_verdict script = StillLooping.
Proof.
  induction script as [|io rest IH]; intros q Hall Hlen.
  - destruct q; [repeat split | cbn in Hlen; lia].
  - inversion Hall as [|? ? Hio Hrest]; subst.
    cbn [tx_sends tx_left tx_verdict]. rewrite Hio.
    destruct q as [|skb q'].
    + destruct (IH [] Hrest) as (H1 & H2 & H3); [cbn; lia|].
      repeat split; assumption.
    + destruct (IH q' Hrest) as (H1 & H2 & H3); [cbn in Hlen; lia|].
      cbn [map fst]. rewrite H1. repeat split; assumption.
Qed.

(** X5.  Order preservation, end to end.  When the stack submits frames
    to a running bridge and the TX loop then runs for at least as many
    iterations as there are frames waiting, without a stop request, the
    transport is handed the frames that were already queued followed by
    the submitted ones, each once and in order; each is released once,
    and the queue is empty afterwards. *)
Theorem xmit_then_tx_in_order
    (fs : list sk_buff) (script : list tx_io)
    (br : vsock_tap_bridge) (t : list event) (dev : net_device) :
  running br = true ->
  tap_dev br = Some dev ->
  Forall (fun io => tx_should_stop io = false) script ->
  (List.length (tx_queue br) + List.length fs <= List.length script)%nat ->
  exists m',
    (xmit_all fs ;; tx_loop script) (at_bridge br t) = Done StillLooping m'
    /\ map fst (sent (trace m')) = (map fst (sent t) ++ tx_queue br ++ fs)%list
    /\ freed (trace m') = (freed t ++ tx_queue br ++ fs)%list
    /\ option_map tx_queue (bridge m') = Some [].
Proof.
  intros Hrun Hdev Hall Hlen.
  destruct (xmit_all_running fs br t Hrun) as (t1 & Hx & Hfreed1 & Hsent1 & _).
  destruct (tx_loop_spec script (set_tx_queue (tx_queue br ++ fs) br) t1 dev
              Hrun Hdev) as (t2 & Hloop & Hsent2 & Hfreed2 & _).
  cbn [tx_queue set_tx_queue] in Hloop, Hsent2, Hfreed2.
  destruct (tx_sends_all script (tx_queue br ++ fs) Hall) as (Hs & Hl & Hv).
  { rewrite length_app. exact Hlen. }
  eexists. split.
  - unfold bind. rewrite Hx, Hloop, Hv. reflexivity.
  - cbn [trace bridge at_bridge option_map tx_queue set_tap_dev set_tx_queue].
    split; [|split].
    + rewrite Hsent2, map_app, Hs, Hsent1. reflexivity.
    + rewrite Hfreed2, Hs, Hfreed1. reflexivity.
    + rewrite Hl. reflexivity.
Qed.

Lemma xmit_then_tx_in_order_witness :
  exists m',
    (xmit_all [frame64; frame3] ;; tx_loop [send_of 3; send_of (-32); send_of 10])
      (at_bridge (set_tx_queue [frame3] busy_bridge) [])
    = Done StillLooping m'
    /\ map fst (sent (trace m')) = [frame3; frame64; frame3]
    /\ freed (trace m') = [frame3; frame64; frame3]
    /\ option_map tx_queue (bridge m') = Some [].
Proof.
  apply (xmit_then_tx_in_order [frame64; frame3]
           [send_of 3; send_of (-32); send_of 10]
           (set_tx_queue [frame3] busy_bridge) [] busy_dev);
    [reflexivity | reflexivity | repeat constructor | cbn; lia].
Defined.

(** ** Frames through the RX loop *)

(** The RX loop against its expected behaviour. *)
Lemma rx_loop_spec (script : list rx_io) :
  forall br t dev,
    running br = true ->
    tap_dev br = Some dev ->
    exists t',
      rx_loop script (at_bridge br t)
      = Done (rx_verdict script)
          (at_bridge
             (set_tap_dev (Some (rx_credit (rx_deliveries script) dev)) br) t')
      /\ injected t' = (injected t ++ map snd (rx_deliveries script))%list
      /\ sent t' = sent t
      /\ freed t' = freed t.
Proof.
  induction script as [|io rest IH]; intros br t dev Hrun Hdev.
  - exists t. cbn [rx_loop rx_deliveries rx_verdict rx_credit fold_left map].
    rewrite (set_tap_dev_same br dev Hdev), app_nil_r. repeat split.
  - cbn [rx_deliveries rx_verdict].
    destruct (rx_should_stop io) eqn:Hstop.
    { exists t. cbn [rx_loop]. rewrite Hstop. cbn [rx_credit fold_left map].
      rewrite (set_tap_dev_same br dev Hdev), app_nil_r. repeat split. }
    rewrite (rx_loop_enter br t io rest Hstop Hrun).
    destruct (Z.leb_spec (recvmsg_ret io) 0) as [Hle|Hpos].
    + destruct (Z.eqb_spec (recvmsg_ret io) (- Errno.EAGAIN)) as [Heq|Hne].
      * rewrite (rx_body_again br t io Heq).
        destruct (IH br (EvRecvmsg (vsock_sock br) (recvmsg_ret io) :: t) dev
                    Hrun Hdev) as (t' & Hloop & Hinj & Hsent & Hfreed).
        exists t'. repeat split; assumption.
      * rewrite (rx_body_fatal br t io Hle Hne).
        exists (EvErr "recvmsg error" (Some (recvmsg_ret io))
                :: EvRecvmsg (vsock_sock br) (recvmsg_ret io) :: t).
        cbn [rx_credit fold_left injected map sent freed].
        rewrite (set_tap_dev_same br dev Hdev), app_nil_r.
        repeat split.
    + destruct (alloc_skb_ok io) eqn:Hok.
      * rewrite (rx_body_inject br t io dev Hpos Hok Hdev).
        destruct (IH (set_tap_dev (Some (rx_account (recvmsg_ret io) dev)) br)
                    (EvNetifRx (rx_frame io)
                     :: EvAllocSkb (recvmsg_ret io + 2) true
                     :: EvRecvmsg (vsock_sock br) (recvmsg_ret io) :: t)
                    (rx_account (recvmsg_ret io) dev) Hrun eq_refl)
          as (t' & Hloop & Hinj & Hsent & Hfreed).
        exists t'. split; [|split; [|split]].
        -- unfold rx_frame in Hloop. rewrite Hloop. reflexivity.
        -- rewrite Hinj. cbn [injected map snd]. rewrite <- app_assoc.
           reflexivity.
        -- exact Hsent.
        -- exact Hfreed.
      * rewrite (rx_body_no_skb br t io Hpos Hok).
        destruct (IH br (EvErr "failed to allocate skb" None
                         :: EvAllocSkb (recvmsg_ret io + 2) false
                         :: EvRecvmsg (vsock_sock br) (recvmsg_ret io) :: t) dev
                    Hrun Hdev) as (t' & Hloop & Hinj & Hsent & Hfreed).
        exists t'. repeat split; assumption.
Qed.

(** The statistics updates of the RX loop keep the name of the
    interface and every counter but [rx_packets] and [rx_bytes]. *)
Lemma rx_credit_keeps (S : list (Z * sk_buff)) :
  forall dev,
    dev_name (rx_credit S dev) = dev_name dev
    /\ tx_packets (stats (rx_credit S dev)) = tx_packets (stats dev)
    /\ tx_bytes (stats (rx_credit S dev)) = tx_bytes (stats dev)
    /\ rx_dropped (stats (rx_credit S dev)) = rx_dropped (stats dev)
    /\ tx_dropped (stats (rx_credit S dev)) = tx_dropped (stats dev).
Proof.
  induction S as [|[len skb] S IH]; intros dev; [repeat split|].
  change (rx_credit ((len, skb) :: S) dev)
    with (rx_credit S (rx_account len dev)).
  destruct (IH (rx_account len dev)) as (H1 & H2 & H3 & H4 & H5).
  rewrite H1, H2, H3, H4, H5. repeat split.
Qed.

(** X6.  The RX loop injects exactly the reads that returned data and got
    a buffer, in the order they were read, up to the first stop request or
    the first read that returned zero or an error other than -EAGAIN; reads
    that returned -EAGAIN or found no buffer are skipped.  The loop sends
    nothing and frees nothing.  Afterwards the structure still has its
    interface, with the same name, the same TX counters and the same drop
    counters, and the socket, both thread handles, both queues and the
    [running] flag are as they were: only [rx_packets] and [rx_bytes] can
    have changed. *)
Theorem rx_injects_good_reads
    (script : list rx_io) (br : vsock_tap_bridge) (t : list event)
    (dev : net_device) :
  running br = true ->
  tap_dev br = Some dev ->
  exists m' dev',
    rx_loop script (at_bridge br t) = Done (rx_verdict script) m'
    /\ injected (trace m') = (injected t ++ map snd (rx_deliveries script))%list
    /\ sent (trace m') = sent t
    /\ freed (trace m') = freed t
    /\ bridge m'
       = Some {| tap_dev := Some dev';
                 vsock_sock := vsock_sock br;
                 rx_thread := rx_thread br;
                 tx_thread := tx_thread br;
                 rx_queue := rx_queue br;
                 tx_queue := tx_queue br;
                 running := true |}
    /\ dev_name dev' = dev_name dev
    /\ tx_packets (stats dev') = tx_packets (stats dev)
    /\ tx_bytes (stats dev') = tx_bytes (stats dev)
    /\ rx_dropped (stats dev') = rx_dropped (stats dev)
    /\ tx_dropped (stats dev') = tx_dropped (stats dev).
Proof.
  intros Hrun Hdev.
  destruct (rx_loop_spec script br t dev Hrun Hdev)
    as (t' & Hloop & Hinj & Hsent & Hfreed).
  destruct (rx_credit_keeps (rx_deliveries script) dev)
    as (H1 & H2 & H3 & H4 & H5).
  eexists. exists (rx_credit (rx_deliveries script) dev).
  split; [exact Hloop|].
  cbn [trace bridge at_bridge].
  split; [exact Hinj|]. split; [exact Hsent|]. split; [exact Hfreed|].
  split.
  - destruct br as [d sock rxt txt rxq txq run]. cbn in Hrun. subst run.
    reflexivity.
  - repeat split; assumption.
Qed.

Lemma rx_injects_good_reads_witness :
  exists m' dev',
    rx_loop [again_read; read_of 3; starved_read; read_of 2; zero_read; read_of 3]
      (at_bridge busy_bridge [])
    = Done LoopExited m'
    /\ injected (trace m')
       = [frame3; {| skb_data := [Byte.x01; Byte.x02] |}]
    /\ sent (trace m') = []
    /\ freed (trace m') = []
    /\ bridge m'
       = Some {| tap_dev := Some dev';
                 vsock_sock := Some VsockStream;
                 rx_thread := Task RX;
                 tx_thread := Task TX;
                 rx_queue := [];
                 tx_queue := [frame3; frame64];
                 running := true |}
    /\ dev_name dev' = "tap0"
    /\ tx_packets (stats dev') = 2 ^ 64 - 1
    /\ tx_bytes (stats dev') = 100
    /\ rx_dropped (stats dev') = 0
    /\ tx_dropped (stats dev') = 0.
Proof.
  apply (rx_injects_good_reads
           [again_read; read_of 3; starved_read; read_of 2; zero_read; read_of 3]
           busy_bridge [] busy_dev); reflexivity.
Defined.





(** ** The lifecycle as a whole *)

(** X8.  The initialization never faults and returns the code of the
    first step that failed: -ENOMEM when the structure or the interface
    cannot be allocated, the code returned by [register_netdev],
    [sock_create_kern] or [kernel_connect], the error carried by the
    pointer [kthread_run] returned, and 0 when all of these succeed.  The
    return value is 0 exactly when no tested step failed; then the global
    pointer refers to the structure in steady state and all six resources
    are held; otherwise the global pointer is NULL and nothing is held. *)
Theorem init_outcome (p : module_params) (env : init_env) :
  exists m',
    vsock_tap_bridge_init p env boot = Done (init_return env) m'
    /\ (init_return env = 0 <-> checked_step_fails env = false)
    /\ bridge m' = (if init_return env =? 0 then Some (steady p) else None)
    /\ ledger [] (history m')
       = Some (if init_return env =? 0 then all_resources else []).
Proof.
  destruct env as [kz an rr sr cr rxe txe dr].
  assert (Hiff : forall z b, z <> 0 -> b = true -> (z = 0 <-> b = false)).
  { intros z b Hz ->. split; [contradiction | discriminate]. }
  destruct kz;
    [|eexists; split; [lazy; reflexivity|];
      split; [apply Hiff; [discriminate | reflexivity]|];
      split; reflexivity].
  destruct an;
    [|eexists; split; [lazy; reflexivity|];
      split; [apply Hiff; [discriminate | reflexivity]|];
      split; reflexivity].
  destruct rr as [|r|r];
    [|eexists; split; [lazy; reflexivity|];
      split; [apply Hiff; [discriminate | reflexivity]|];
      split; reflexivity ..].
  destruct sr as [|r|r];
    [|eexists; split; [lazy; reflexivity|];
      split; [apply Hiff; [discriminate | reflexivity]|];
      split; reflexivity ..].
  destruct cr as [|r|r];
    [|eexists; split; [lazy; reflexivity|];
      split; [apply Hiff; [discriminate | reflexivity]|];
      split; reflexivity ..].
  destruct rxe as [e|];
    [eexists; split; [lazy; reflexivity|];
     split; [apply Hiff; [discriminate | reflexivity]|];
     split; reflexivity|].
  destruct txe as [e|];
    [eexists; split; [lazy; reflexivity|];
     split; [apply Hiff; [discriminate | reflexivity]|];
     split; reflexivity|].
  eexists. split; [lazy; reflexivity|].
  split; [split; reflexivity|].
  split; reflexivity.
Qed.

(** X9.  Whatever the kernel answers during the initialization, running
    the cleanup after it leaves the global pointer NULL and nothing held:
    each resource the initialization acquired has been released exactly
    once, in the reverse order of acquisition, either by the unwinding or
    by the cleanup, and neither routine faults. *)
Theorem init_then_exit_balanced (p : module_params) (env : init_env) :
  exists m',
    (vsock_tap_bridge_init p env ;; vsock_tap_bridge_exit) boot = Done tt m'
    /\ bridge m' = None
    /\ ledger [] (history m') = Some [].
Proof.
  destruct env as [kz an rr sr cr rxe txe dr].
  destruct kz; [|eexists; split; [lazy; reflexivity|]; split; reflexivity].
  destruct an; [|eexists; split; [lazy; reflexivity|]; split; reflexivity].
  destruct rr as [|r|r];
    [|eexists; split; [lazy; reflexivity|]; split; reflexivity ..].
  destruct sr as [|r|r];
    [|eexists; split; [lazy; reflexivity|]; split; reflexivity ..].
  destruct cr as [|r|r];
    [|eexists; split; [lazy; reflexivity|]; split; reflexivity ..].
  destruct rxe as [e|];
    [eexists; split; [lazy; reflexivity|]; split; reflexivity|].
  destruct txe as [e|];
    eexists; (split; [lazy; reflexivity|]; split; reflexivity).
Qed.

Lemma freed_app (a b : list event) :
  freed (a ++ b) = (freed b ++ freed a)%list.
Proof.
  induction a as [|e a IH]; [cbn; rewrite app_nil_r; reflexivity|].
  destruct e; cbn [app freed]; rewrite ?IH, ?app_assoc; reflexivity.
Qed.

Lemma exit_history_quiet (br : vsock_tap_bridge) :
  freed (rev (exit_history br)) = []
  /\ sent (rev (exit_history br)) = []
  /\ wakeups (rev (exit_history br)) = O.
Proof.
  destruct br as [dev sock rxt txt rxq txq run].
  destruct dev, sock, rxt, txt; repeat split.
Qed.

(** X10.  Cleanup of a bridge that has been running, whatever its
    counters and whatever is still queued: all six resources are released,
    each once and in the reverse order of acquisition; the frames still
    waiting in the queues are purged, and nothing is sent. *)
Theorem exit_releases_everything
    (br : vsock_tap_bridge) (dev : net_device) (s : socket) :
  tap_dev br = Some dev ->
  vsock_sock br = Some s ->
  rx_thread br = Task RX ->
  tx_thread br = Task TX ->
  exists m',
    vsock_tap_bridge_exit (at_bridge br []) = Done tt m'
    /\ bridge m' = None
    /\ ledger all_resources (history m') = Some []
    /\ In (EvQueuePurge RxQueue (rx_queue br)) (history m')
    /\ In (EvQueuePurge TxQueue (tx_queue br)) (history m')
    /\ sent (trace m') = [].
Proof.
  intros Hdev Hsock Hrx Htx.
  eexists. split; [apply exit_present|].
  unfold history. cbn [bridge trace]. rewrite app_nil_r, rev_involutive.
  split; [reflexivity|].
  destruct br as [d so rxt txt rxq txq run]. cbn in Hdev, Hsock, Hrx, Htx.
  subst d so rxt txt. unfold exit_history.
  cbn [tap_dev vsock_sock rx_thread tx_thread rx_queue tx_queue task_is_null app].
  split; [reflexivity|].
  split; [cbn; tauto|].
  split; [cbn; tauto|].
  reflexivity.
Qed.

Lemma exit_releases_everything_witness :
  exists m',
    vsock_tap_bridge_exit (at_bridge busy_bridge []) = Done tt m'
    /\ bridge m' = None
    /\ ledger all_resources (history m') = Some []
    /\ In (EvQueuePurge RxQueue []) (history m')
    /\ In (EvQueuePurge TxQueue [frame3; frame64]) (history m')
    /\ sent (trace m') = [].
Proof.
  apply (exit_releases_everything busy_bridge busy_dev VsockStream);
    reflexivity.
Defined.

Lemma xmit_all_absent (fs : list sk_buff) :
  forall t,
    exists t',
      xmit_all fs {| bridge := None; trace := t |}
      = Done tt {| bridge := None; trace := t' |}
      /\ freed t' = (freed t ++ fs)%list
      /\ wakeups t' = wakeups t.
Proof.
  induction fs as [|f rest IH]; intros t.
  - exists t. cbn. rewrite app_nil_r. repeat split.
  - cbn [xmit_all]. unfold bind at 1. rewrite tap_xmit_absent.
    destruct (IH (EvKfreeSkb f :: t)) as (t' & Hx & Hfreed & Hwake).
    exists t'. split; [exact Hx|]. split; [|exact Hwake].
    rewrite Hfreed. cbn [freed]. rewrite <- app_assoc. reflexivity.
Qed.

(** X11.  After a cleanup, from any state of the module, the upcall
    releases every frame it is given, in order, queues nothing and wakes
    nobody: the global pointer stays NULL. *)
Theorem xmit_after_exit_frees (fs : list sk_buff) (m : machine) :
  exists m',
    (vsock_tap_bridge_exit ;; xmit_all fs) m = Done tt m'
    /\ bridge m' = None
    /\ freed (trace m') = (freed (trace m) ++ fs)%list
    /\ wakeups (trace m') = wakeups (trace m).
Proof.
  destruct m as [[br|] t].
  - destruct (exit_history_quiet br) as (Hf & _ & Hw).
    destruct (xmit_all_absent fs (rev (exit_history br) ++ t))
      as (t' & Hx & Hfreed & Hwake).
    eexists. split.
    + unfold bind. change {| bridge := Some br; trace := t |} with (at_bridge br t).
      rewrite exit_present. exact Hx.
    + cbn [bridge trace]. split; [reflexivity|]. split.
      * rewrite Hfreed, freed_app, Hf, app_nil_r. reflexivity.
      * rewrite Hwake.
        clear - Hw. induction (rev (exit_history br)) as [|e l IH]; [reflexivity|].
        destruct e; cbn in Hw |- *; try discriminate; apply IH; exact Hw.
  - destruct (xmit_all_absent fs (EvInfo "Cleaning up" :: t))
      as (t' & Hx & Hfreed & Hwake).
    eexists. split.
    + unfold bind. rewrite exit_absent. exact Hx.
    + cbn [bridge trace]. repeat split; assumption.
Qed.

(** ** Traffic never touches the resources of the lifecycle *)

Lemma same_resources_refl (m : machine) : same_resources m m.
Proof. split; reflexivity. Qed.

Lemma same_resources_trans (a b c : machine) :
  same_resources a b -> same_resources b c -> same_resources a c.
Proof. intros [H1 H2] [H3 H4]. split; congruence. Qed.

Lemma tap_xmit_same_resources (skb : sk_buff) (m : machine) :
  same_resources m (final (tap_xmit skb m)).
Proof.
  destruct m as [[br|] t]; [|split; reflexivity].
  destruct (running br) eqn:Hrun.
  - change {| bridge := Some br; trace := t |} with (at_bridge br t).
    rewrite (tap_xmit_running skb br t Hrun). split; reflexivity.
  - change {| bridge := Some br; trace := t |} with (at_bridge br t).
    rewrite (tap_xmit_stopped skb br t Hrun). split; reflexivity.
Qed.

Lemma xmit_all_same_resources (fs : list sk_buff) :
  forall m, same_resources m (final (xmit_all fs m)).
Proof.
  induction fs as [|f rest IH]; intros m; [apply same_resources_refl|].
  cbn [xmit_all]. unfold bind.
  pose proof (tap_xmit_same_resources f m) as Hx.
  destruct (tap_xmit f m) as [r m'|m']; cbn [final] in Hx.
  - apply (same_resources_trans m m'); [exact Hx | apply IH].
  - exact Hx.
Qed.

Lemma rx_body_same_resources (io : rx_io) (m : machine) :
  same_resources m (final (rx_body io m)).
Proof.
  destruct m as [[br|] t]; [|apply same_resources_refl].
  unfold rx_body, bind, deref. cbn [bridge].
  unfold call at 1. cbn [bridge trace].
  destruct (recvmsg_ret io <=? 0).
  - destruct (recvmsg_ret io =? - Errno.EAGAIN); split; reflexivity.
  - unfold call at 1. cbn [bridge trace].
    destruct (alloc_skb_ok io); cbn [negb bridge].
    + destruct (tap_dev br) as [dev|] eqn:Hdev; split; try reflexivity.
      cbn. unfold handles. cbn. rewrite Hdev. reflexivity.
    + split; reflexivity.
Qed.

Lemma tx_body_same_resources (io : tx_io) (m : machine) :
  same_resources m (final (tx_body io m)).
Proof.
  destruct m as [[br|] t]; [|apply same_resources_refl].
  unfold tx_body, bind, deref. cbn [bridge].
  destruct (tx_queue br) as [|skb q]; [split; reflexivity|].
  unfold update at 1. cbn [bridge trace].
  unfold call at 1. cbn [bridge trace].
  unfold call at 1. cbn [bridge trace].
  destruct (sendmsg_ret io <? 0); [split; reflexivity|].
  cbn [bridge set_tx_queue tap_dev].
  destruct (tap_dev br) as [dev|] eqn:Hdev; split; try reflexivity.
  cbn. unfold handles. cbn. rewrite Hdev. reflexivity.
Qed.

Lemma rx_loop_same_resources (script : list rx_io) :
  forall m, same_resources m (final (rx_loop script m)).
Proof.
  induction script as [|io rest IH]; intros m; [apply same_resources_refl|].
  cbn [rx_loop]. destruct (rx_should_stop io); [apply same_resources_refl|].
  unfold bind at 1. unfold deref at 1.
  destruct (bridge m) as [br|] eqn:Hbr; [|apply same_resources_refl].
  destruct (running br); cbn [negb]; [|apply same_resources_refl].
  unfold bind at 1.
  pose proof (rx_body_same_resources io m) as Hbody.
  destruct (rx_body io m) as [[|] m'|m']; cbn [final] in Hbody.
  - apply (same_resources_trans m m'); [exact Hbody | apply IH].
  - exact Hbody.
  - exact Hbody.
Qed.

Lemma tx_loop_same_resources (script : list tx_io) :
  forall m, same_resources m (final (tx_loop script m)).
Proof.
  induction script as [|io rest IH]; intros m; [apply same_resources_refl|].
  cbn [tx_loop]. destruct (tx_should_stop io); [apply same_resources_refl|].
  unfold bind at 1. unfold deref at 1.
  destruct (bridge m) as [br|] eqn:Hbr; [|apply same_resources_refl].
  destruct (running br); cbn [negb]; [|apply same_resources_refl].
  unfold bind at 1.
  pose proof (tx_body_same_resources io m) as Hbody.
  destruct (tx_body io m) as [[] m'|m']; cbn [final] in Hbody.
  - apply (same_resources_trans m m'); [exact Hbody | apply IH].
  - exact Hbody.
Qed.

(** X12.  Traffic never touches what the lifecycle owns.  From any state
    of the module and for any answers of the kernel, the upcall, the RX
    loop and the TX loop take no action that acquires or releases a
    resource (no allocation, no thread start or stop, no socket release,
    no unregistration, no free of the interface or the structure), and
    they leave the socket, both thread handles, the [running] flag and the
    identity of the interface as they found them. *)
Theorem traffic_keeps_resources (m : machine) :
  (forall fs, same_resources m (final (xmit_all fs m)))
  /\ (forall script, same_resources m (final (rx_loop script m)))
  /\ (forall script, same_resources m (final (tx_loop script m))).
Proof.
  split; [|split]; intros x.
  - apply xmit_all_same_resources.
  - apply rx_loop_same_resources.
  - apply tx_loop_same_resources.
Qed.

(** ** A whole session *)

Lemma ledger_app (a b : list event) :
  forall held,
    ledger held (a ++ b)
    = match ledger held a with
      | Some held' => ledger held' b
      | None => None
      end.
Proof.
  induction a as [|e a IH]; intros held; [reflexivity|].
  cbn [app ledger]. destruct (account held e); [apply IH | reflexivity].
Qed.

Lemma account_neutral (held : list resource) (e : event) :
  lifecycle_event e = false -> account held e = Some held.
Proof. destruct e; cbn; intros H; try discriminate H; reflexivity. Qed.

Lemma ledger_filter (l : list event) :
  forall held, ledger held l = ledger held (filter lifecycle_event l).
Proof.
  induction l as [|e l IH]; intros held; [reflexivity|].
  cbn [filter]. destruct (lifecycle_event e) eqn:He.
  - cbn [ledger]. destruct (account held e); [apply IH | reflexivity].
  - cbn [ledger]. rewrite (account_neutral held e He). apply IH.
Qed.

Lemma filter_lifecycle_rev (l : list event) :
  filter lifecycle_event (rev l) = rev (filter lifecycle_event l).
Proof.
  induction l as [|e l IH]; [reflexivity|].
  cbn [rev filter]. rewrite filter_app, IH. cbn [filter].
  destruct (lifecycle_event e); [reflexivity | apply app_nil_r].
Qed.

(** The ledger of a history only depends on its lifecycle actions. *)
Lemma ledger_history (held : list resource) (t t' : list event) :
  filter lifecycle_event t' = filter lifecycle_event t ->
  ledger held (rev t') = ledger held (rev t).
Proof.
  intros H.
  rewrite (ledger_filter (rev t')), (ledger_filter (rev t)).
  rewrite !filter_lifecycle_rev, H. reflexivity.
Qed.

(** X13.  A whole session is balanced.  When the initialization succeeds,
    then whatever frames the stack submits, whatever the transport answers
    to the two threads and however long they run, the session runs to the
    end without a fault, the cleanup leaves the global pointer NULL, and
    every resource acquired at load time has been released exactly once,
    in the reverse order of acquisition. *)
Theorem session_balanced
    (p : module_params) (env : init_env) (fs : list sk_buff)
    (rxs : list rx_io) (txs : list tx_io) :
  checked_step_fails env = false ->
  exists m',
    session p env fs rxs txs boot = Done tt m'
    /\ bridge m' = None
    /\ ledger [] (history m') = Some [].
Proof.
  intros Hok.
  destruct (init_success p env Hok) as (m0 & Hinit & Hbr0 & _ & Hled0).
  destruct m0 as [g t0]. cbn [bridge] in Hbr0. subst g.
  fold (steady p) in Hinit. fold (at_bridge (steady p) t0) in Hinit.
  unfold history in Hled0. cbn [trace] in Hled0.
  set (dev0 := {| dev_name := tap_name p; stats := zero_stats |}).
  destruct (xmit_all_running fs (steady p) t0 eq_refl) as (t1 & Hx & _).
  set (br1 := set_tx_queue (tx_queue (steady p) ++ fs) (steady p)) in Hx.
  destruct (rx_loop_spec rxs br1 t1 dev0 eq_refl eq_refl) as (t2 & Hrx & _).
  set (d2 := rx_credit (rx_deliveries rxs) dev0) in Hrx.
  set (br2 := set_tap_dev (Some d2) br1) in Hrx.
  destruct (tx_loop_spec txs br2 t2 d2 eq_refl eq_refl) as (t3 & Htx & _).
  set (d3 := tx_credit (tx_sends (tx_queue br2) txs) d2) in Htx.
  set (left := tx_left (tx_queue br2) txs) in Htx.
  set (br3 := set_tap_dev (Some d3) (set_tx_queue left br2)) in Htx.
  assert (H01 : filter lifecycle_event t1 = filter lifecycle_event t0).
  { pose proof (xmit_all_same_resources fs (at_bridge (steady p) t0)) as [H _].
    rewrite Hx in H. exact H. }
  assert (H12 : filter lifecycle_event t2 = filter lifecycle_event t1).
  { pose proof (rx_loop_same_resources rxs (at_bridge br1 t1)) as [H _].
    rewrite Hrx in H. exact H. }
  assert (H23 : filter lifecycle_event t3 = filter lifecycle_event t2).
  { pose proof (tx_loop_same_resources txs (at_bridge br2 t2)) as [H _].
    rewrite Htx in H. exact H. }
  eexists. split.
  - unfold session, bind. rewrite Hinit, Hx, Hrx, Htx.
    apply exit_present.
  - split; [reflexivity|].
    unfold history. cbn [trace].
    rewrite rev_app_distr, rev_involutive, ledger_app.
    rewrite (ledger_history [] t0 t3) by congruence.
    rewrite Hled0. reflexivity.
Qed.

Lemma session_balanced_witness :
  exists m',
    session default_params env_dev_open_fails [frame3; frame64]
      [read_of 3; again_read; reset_read] [send_of (-32); send_of 10] boot
    = Done tt m'
    /\ bridge m' = None
    /\ ledger [] (history m') = Some [].
Proof.
  apply (session_balanced default_params env_dev_open_fails).
  reflexivity.
Defined.
